(** * Voice-Powered Flowchart Generator: session pipeline

    A shallow embedding of [backend.py] (folder naming, generator
    post-processing, the render stage, the generate/persist/render
    pipeline) and of the request handlers of [app.py], followed by the
    properties of the session pipeline.

    Modelling conventions.
    - A Python [str] is a list of Unicode code points ([list N]); the
      conversion [lit] turns an ASCII literal into such a list.
    - A [pathlib.Path] is the list of its parts.  The storage is a finite
      map from resolved paths to the characters a file holds (a POSIX
      system with a UTF-8 locale: [write_text] stores the text as it is,
      refuses text it cannot encode, and [read_text] applies universal
      newlines).  ["/"] is the only separator.
    - Directories are not part of the storage: every directory a path
      names is taken to exist and every path name to be acceptable to the
      operating system, so [".."] is resolved lexically, [mkdir] changes
      nothing and no operation fails for a missing folder or an
      over-long name.  Statements that depend on a write having happened
      are therefore made conditional on what the code returned.
    - The external services (the Gemini model, the Graphviz executable,
      the PyMuPDF embedder) are fields of a [capabilities] record; every
      use of one is appended to the call log of the world.
    - Effects are threaded by a state-and-exception monad [M]. *)

From Stdlib Require Import NArith ZArith List Bool Lia.
From Stdlib Require Import Strings.String Strings.Ascii.
From stdpp Require Import base option list gmap.
Import ListNotations.

Local Open Scope N_scope.

(** ** Python strings *)

Definition char : Type := N.
Definition str : Type := list char.

(** An ASCII literal as a Python string. *)
Definition lit (s : string) : str :=
  List.map N_of_ascii (list_ascii_of_string s).

Definition in_range (lo hi c : char) : bool := (lo <=? c) && (c <=? hi).

(** The character class [a-zA-Z0-9_-] of [sanitize_email_for_folder]. *)
Definition folder_char (c : char) : bool :=
  in_range 97 122 c || in_range 65 90 c || in_range 48 57 c
  || (c =? 95) || (c =? 45).

(** [re.sub(r'[^...]', repl, s)] for a negated one-character class: every
    character outside the class is a match and is replaced by [repl]. *)
Fixpoint re_sub_negated_class (cls : char -> bool) (repl s : str) : str :=
  match s with
  | [] => []
  | c :: s' =>
      if cls c then c :: re_sub_negated_class cls repl s'
      else repl ++ re_sub_negated_class cls repl s'
  end.

(** backend.py: [sanitize_email_for_folder]. *)
Definition sanitize_email_for_folder (email : str) : str :=
  re_sub_negated_class folder_char (lit "_") email.

(** [re.fullmatch(r'[A-Za-z0-9_-]*', s)], as a boolean. *)
Definition matches_folder_pattern (s : str) : bool := forallb folder_char s.

(** [str.isspace] on one code point: the characters [str.strip] removes. *)
Definition isspace (c : char) : bool :=
  in_range 9 13 c || in_range 28 32 c || (c =? 133) || (c =? 160)
  || (c =? 5760) || in_range 8192 8202 c || (c =? 8232) || (c =? 8233)
  || (c =? 8239) || (c =? 8287) || (c =? 12288).

Fixpoint lstrip (s : str) : str :=
  match s with
  | [] => []
  | c :: s' => if isspace c then lstrip s' else s
  end.

Definition rstrip (s : str) : str := rev (lstrip (rev s)).

Definition strip (s : str) : str := rstrip (lstrip s).

Fixpoint startswith (s pre : str) : bool :=
  match pre, s with
  | [], _ => true
  | _ :: _, [] => false
  | p :: pre', c :: s' => (c =? p) && startswith s' pre'
  end.

(** Left-to-right scan of [str.replace] for a non-empty [old]; [skip] counts
    the characters of the current match that are still to be dropped. *)
Fixpoint replace_scan (old new : str) (skip : nat) (s : str) : str :=
  match s with
  | [] => []
  | c :: s' =>
      match skip with
      | S k => replace_scan old new k s'
      | O =>
          if startswith s old
          then new ++ replace_scan old new (Nat.pred (length old)) s'
          else c :: replace_scan old new O s'
      end
  end.

(** [s.replace(old, new)]; an empty [old] matches before every character and
    at the end. *)
Definition replace (s old new : str) : str :=
  match old with
  | [] => new ++ flat_map (fun c => c :: new) s
  | _ :: _ => replace_scan old new O s
  end.

Definition str_eqb (a b : str) : bool := bool_decide (a = b).

(** Universal newlines, the translation [open(..., newline=None)] applies
    when reading: CR LF and a lone CR both become LF. *)
Fixpoint universal_newlines (s : str) : str :=
  match s with
  | [] => []
  | c :: s' =>
      if c =? 13 then
        match s' with
        | c' :: s'' =>
            if c' =? 10 then 10 :: universal_newlines s''
            else 10 :: universal_newlines s'
        | [] => [10]
        end
      else c :: universal_newlines s'
  end.

(** Whether UTF-8 can encode the text: every code point but the surrogates
    U+D800 to U+DFFF. *)
Definition encodable (s : str) : bool :=
  forallb (fun c => negb (in_range 55296 57343 c)) s.

(** Index of the last occurrence of [c] in [s] ([str.rfind], [None] for -1). *)
Fixpoint rfind_from (c : char) (i : nat) (s : str) (found : option nat)
  : option nat :=
  match s with
  | [] => found
  | x :: s' => rfind_from c (S i) s' (if x =? c then Some i else found)
  end.

Definition rfind (s : str) (c : char) : option nat := rfind_from c O s None.

(** Split on one separator character ([str.split(sep)]). *)
Fixpoint split_on (sep : char) (s : str) : list str :=
  match s with
  | [] => [[]]
  | c :: s' =>
      if c =? sep then [] :: split_on sep s'
      else match split_on sep s' with
           | [] => [[c]]
           | p :: ps => (c :: p) :: ps
           end
  end.

(** ** Paths ([pathlib]) *)

(** A path is the list of its parts; an absolute path starts with the part
    ["/"]. *)
Definition Path : Type := list str.

Definition is_absolute (s : str) : bool :=
  match s with
  | c :: _ => c =? 47
  | [] => false
  end.

(** The components of a path string: empty components and ["."] are
    dropped, [".."] is kept. *)
Definition parse_parts (s : str) : list str :=
  List.filter (fun p => negb (str_eqb p []) && negb (str_eqb p (lit ".")))
              (split_on 47 s).

(** [Path(s)]. *)
Definition PurePath (s : str) : Path :=
  (if is_absolute s then [lit "/"] else []) ++ parse_parts s.

(** [p / s]: an absolute right operand replaces the left one. *)
Definition joinpath (p : Path) (s : str) : Path :=
  if is_absolute s then PurePath s else p ++ parse_parts s.

Notation "p // s" := (joinpath p s) (at level 40, left associativity).

(** [p.name]: the final component, empty for the root. *)
Definition name (p : Path) : str :=
  let n := List.last p [] in
  if str_eqb n (lit "/") then [] else n.

(** [p.stem]: the final component without its last suffix. *)
Definition stem (p : Path) : str :=
  let n := name p in
  match rfind n 46 with
  | Some i =>
      if (0 <? i)%nat && (i <? length n - 1)%nat then take i n else n
  | None => n
  end.

(** Lexical resolution of [".."] by the operating system; [stack] holds the
    parts seen so far, innermost first. *)
Fixpoint resolve_onto (stack : list str) (p : Path) : list str :=
  match p with
  | [] => rev stack
  | x :: p' =>
      if str_eqb x (lit "..") then
        match stack with
        | [] => resolve_onto [x] p'
        | top :: st =>
            if str_eqb top (lit "/") then resolve_onto stack p'
            else if str_eqb top (lit "..") then resolve_onto (x :: stack) p'
            else resolve_onto st p'
        end
      else resolve_onto (x :: stack) p'
  end.

Definition resolve (p : Path) : list str := resolve_onto [] p.

(** [str(p)], used in exception messages only. *)
Fixpoint path_str (p : Path) : str :=
  match p with
  | [] => lit "."
  | [x] => x
  | x :: p' =>
      if str_eqb x (lit "/") then x ++ path_str p'
      else x ++ lit "/" ++ path_str p'
  end.

(** ** The world: storage and external services *)

(** What is sent to the Gemini model: the system prompt of
    [generate_initial_dot_code] filled with the user's first instruction, or
    the one of [modify_dot_code] filled with the current DOT code and the
    next instruction. *)
Inductive gen_request : Type :=
  | InitialPrompt (prompt_text : str)
  | ModifyPrompt (current_dot_code prompt_text : str).

Inductive exn : Type :=
  | FileNotFoundError (p : Path)
  | UnicodeEncodeError (text : str)
  | PermissionError (what : str).

(** The external services. *)
Record capabilities : Type := {
  (** [MODEL.generate_content(system_prompt).text]; [None] when the call
      raises *)
  MODEL_generate_content : gen_request -> option str;
  (** [dot -Tpng], once started: the PNG bytes for a DOT text; [None] when
      it exits with an error status, which [check=True] turns into
      [CalledProcessError] *)
  dot_exe : str -> option str;
  (** PyMuPDF: template bytes and image bytes to the bytes of the saved PDF;
      [None] when one of its calls raises *)
  fitz_insert_image : str -> str -> option str;
  (** the exception [subprocess.run] raises when it cannot start the
      executable, for the DOT text at hand: [FileNotFoundError] when it is
      not at [DOT_PATH], [PermissionError] when it may not be run *)
  subprocess_raises : str -> option exn
}.

Inductive call : Type :=
  | CallModel (r : gen_request)
  | CallDot (dot_text : str)
  | CallFitz (template image : str).

Record world : Type := {
  files : gmap (list str) str;
  calls : list call
}.

Definition set_files (w : world) (fs : gmap (list str) str) : world :=
  {| files := fs; calls := calls w |}.

Definition log_call (w : world) (c : call) : world :=
  {| files := files w; calls := calls w ++ [c] |}.

(** [str(e)] *)
Definition exn_str (e : exn) : str :=
  match e with
  | FileNotFoundError p =>
      lit "[Errno 2] No such file or directory: '" ++ path_str p ++ lit "'"
  | UnicodeEncodeError _ =>
      lit "'utf-8' codec can't encode character: surrogates not allowed"
  | PermissionError what =>
      lit "[Errno 13] Permission denied: '" ++ what ++ lit "'"
  end.

Inductive outcome (A : Type) : Type :=
  | Return (a : A)
  | Raise (e : exn).
Arguments Return {A} a.
Arguments Raise {A} e.

(** ** The monad of state and exceptions *)

Definition M (A : Type) : Type := world -> outcome A * world.

Definition ret {A} (a : A) : M A := fun w => (Return a, w).

Definition raise {A} (e : exn) : M A := fun w => (Raise e, w).

Definition bind {A B} (m : M A) (k : A -> M B) : M B :=
  fun w =>
    match m w with
    | (Return a, w') => k a w'
    | (Raise e, w') => (Raise e, w')
    end.

Notation "'do' x <- m ; k" := (bind m (fun x => k))
  (at level 10, x name, m at level 100, k at level 200).
Notation "'do' ' p <- m ; k" :=
  (bind m (fun x => match x with p => k end))
  (at level 10, p pattern, m at level 100, k at level 200).
Notation "'run' m ; k" := (bind m (fun _ => k))
  (at level 10, m at level 100, k at level 200).

(** [try: m  except Exception as e: ...] with the handler applied by the
    caller. *)
Definition attempt {A} (m : M A) : M (A + exn) :=
  fun w =>
    match m w with
    | (Return a, w') => (Return (inl a), w')
    | (Raise e, w') => (Return (inr e), w')
    end.

(** [try: m  finally: f] *)
Definition try_finally {A} (m : M A) (f : M unit) : M A :=
  fun w =>
    match m w with
    | (r, w') =>
        match f w' with
        | (Return _, w'') => (r, w'')
        | (Raise e, w'') => (Raise e, w'')
        end
    end.

(** *** Storage operations *)

Definition path_exists (p : Path) : M bool :=
  fun w => (Return (bool_decide (is_Some (files w !! resolve p))), w).

Definition is_file (p : Path) : M bool := path_exists p.

(** [p.read_text()]: the stored characters under universal newlines. *)
Definition read_text (p : Path) : M str :=
  fun w =>
    match files w !! resolve p with
    | Some t => (Return (universal_newlines t), w)
    | None => (Raise (FileNotFoundError p), w)
    end.

(** [p.write_text(t)]: the file is opened for writing, which creates or
    empties it, then the text is encoded and written; text that cannot be
    encoded raises and leaves the file empty. *)
Definition write_text (p : Path) (t : str) : M unit :=
  fun w =>
    if encodable t
    then (Return tt, set_files w (<[resolve p := t]> (files w)))
    else (Raise (UnicodeEncodeError t),
          set_files w (<[resolve p := []]> (files w))).

Definition unlink (p : Path) : M unit :=
  fun w =>
    match files w !! resolve p with
    | Some _ => (Return tt, set_files w (delete (resolve p) (files w)))
    | None => (Raise (FileNotFoundError p), w)
    end.

(** [p.mkdir(parents=True, exist_ok=True)]: directories are implicit. *)
Definition mkdir (p : Path) : M unit := ret tt.

Definition endswith (s suf : str) : bool := startswith (rev s) (rev suf).

(** [dir.glob(pattern)] for the pattern ["*" ++ suf]: the entries directly
    inside [dir] whose name ends with [suf]. *)
Definition glob_suffix (dir : Path) (suf : str) : M (list Path) :=
  fun w =>
    let d := resolve dir in
    (Return
       (omap (fun k : list str =>
                if bool_decide (take (length d) k = d
                                /\ length k = S (length d))
                   && endswith (List.last k []) suf
                then Some (dir ++ [List.last k []]) else None)
             (List.map fst (map_to_list (files w)))), w).

(** ** backend.py *)

Definition TEMP_DIR : Path := PurePath (lit "./temp_files").
Definition SESSION_DIR : Path := PurePath (lit "./session_files").
Definition OUTPUT_DIR : Path := PurePath (lit "./outputs").
Definition TEMPLATE_DIR : Path := PurePath (lit "./flowchart_templates").
Definition DOT_PATH : str := lit "C:/Program Files/Graphviz/bin/dot.exe".
Definition PDF_TEMPLATE_PATH : str := lit "Template.pdf".

(** [response.text.strip().replace("```dot", "").replace("```", "").strip()] *)
Definition clean_response_text (text : str) : str :=
  strip (replace (replace (strip text) (lit "```dot") []) (lit "```") []).

Definition generate_content (caps : capabilities) (r : gen_request)
  : M (option str) :=
  fun w => (Return (MODEL_generate_content caps r), log_call w (CallModel r)).

Definition generate_initial_dot_code (caps : capabilities) (prompt_text : str)
  : M (option str) :=
  do response <- generate_content caps (InitialPrompt prompt_text) ;
  match response with
  | Some text => ret (Some (clean_response_text text))
  | None => ret None
  end.

Definition modify_dot_code (caps : capabilities)
    (current_dot_code prompt_text : str) : M (option str) :=
  do response <-
    generate_content caps (ModifyPrompt current_dot_code prompt_text) ;
  match response with
  | Some text => ret (Some (clean_response_text text))
  | None => ret None
  end.

(** The [try] body of [convert_dot_to_png] with its two [except] clauses:
    [subprocess.run([DOT_PATH, "-Tpng", "-o", output_path, dot_file],
    check=True)] gives [true] when the executable ran and exited with status
    0, having written the image, and [false] on [FileNotFoundError] and on
    [CalledProcessError]; any other exception is raised. *)
Definition subprocess_run_dot (caps : capabilities)
    (output_path dot_file : Path) : M bool :=
  fun w =>
    match files w !! resolve dot_file with
    | None => (Return false, w)
    | Some text =>
        let w1 := log_call w (CallDot text) in
        match subprocess_raises caps text with
        | Some (FileNotFoundError _) => (Return false, w1)
        | Some e => (Raise e, w1)
        | None =>
            match dot_exe caps text with
            | Some png =>
                (Return true,
                 set_files w1 (<[resolve output_path := png]> (files w1)))
            | None => (Return false, w1)
            end
        end
    end.

Definition convert_dot_to_png (caps : capabilities) (dot_code : str)
    (output_path : Path) : M bool :=
  let dot_file := TEMP_DIR // (stem output_path ++ lit ".dot") in
  run write_text dot_file dot_code ;
  try_finally
    (subprocess_run_dot caps output_path dot_file)
    (do present <- path_exists dot_file ;
     if present then unlink dot_file else ret tt).

(** [fitz.open], [insert_image] and [save] of [embed_image_in_pdf]; any
    exception is caught by the caller's [except Exception]. *)
Definition fitz_embed (caps : capabilities)
    (template image output : Path) : M bool :=
  fun w =>
    match files w !! resolve template, files w !! resolve image with
    | Some t, Some i =>
        let w1 := log_call w (CallFitz t i) in
        match fitz_insert_image caps t i with
        | Some pdf =>
            (Return true, set_files w1 (<[resolve output := pdf]> (files w1)))
        | None => (Return false, w1)
        end
    | _, _ => (Return false, w)
    end.

Definition embed_image_in_pdf (caps : capabilities) (template_path : str)
    (image_path output_pdf_path : Path) : M bool :=
  do present <- path_exists (PurePath template_path) ;
  if negb present then ret false
  else fitz_embed caps (PurePath template_path) image_path output_pdf_path.

(** Truth value of a Python string. *)
Definition str_truthy (s : str) : bool := negb (str_eqb s []).

(** Truth value of a [str | None]. *)
Definition truthy (o : option str) : bool :=
  match o with
  | Some s => str_truthy s
  | None => false
  end.

(** The pair [(output_pdf_filename, error)] the two [process_] functions
    return. *)
Definition processed : Type := option str * option str.

Definition process_dot_code (caps : capabilities) (dot_code : str)
    (session_file : Path) : M processed :=
  run write_text session_file dot_code ;
  let temp_png_path := TEMP_DIR // (stem session_file ++ lit ".png") in
  let output_pdf_filename := lit "flowchart_" ++ stem session_file ++ lit ".pdf" in
  let output_pdf_path := OUTPUT_DIR // output_pdf_filename in
  do converted <- convert_dot_to_png caps dot_code temp_png_path ;
  if negb converted
  then ret (None, Some (lit "Failed to convert flowchart to an image."))
  else
    do embedded <- embed_image_in_pdf caps PDF_TEMPLATE_PATH temp_png_path
                  output_pdf_path ;
    if negb embedded
    then ret (None, Some (lit "Failed to embed image in PDF."))
    else
      do present <- path_exists temp_png_path ;
      run (if present then unlink temp_png_path else ret tt) ;
      ret (Some output_pdf_filename, None).

Definition process_flowchart_request (caps : capabilities) (user_prompt : str)
    (session_file : Path) (is_new : bool) : M processed :=
  do dot_code <-
    (if is_new then generate_initial_dot_code caps user_prompt
     else do current_dot_code <- read_text session_file ;
          modify_dot_code caps current_dot_code user_prompt) ;
  if negb (truthy dot_code)
  then ret (None, Some (lit "Failed to generate flowchart logic."))
  else process_dot_code caps (default [] dot_code) session_file.

(** ** app.py *)

(** The body handed to [jsonify]. *)
Inductive json_body : Type :=
  | JsonError (error : str)
  | JsonSuccess (user_email session_id message : str)
                (output_filename : option str).

(** A handler's result: the JSON body and the HTTP status. *)
Definition response : Type := json_body * N.

(** The [id] fields of the entries of [list_templates]: the stems of the
    [*.dot] files of the template directory (the display names are not
    modelled). *)
Definition list_templates_ids : M (list str) :=
  do fs <- glob_suffix TEMPLATE_DIR (lit ".dot") ;
  ret (List.map stem fs).

(** [handle_load_template_request]; [uuid4] is the value [str(uuid.uuid4())]
    draws, [json] is [request.json]. *)
Definition handle_load_template_request (caps : capabilities) (uuid4 : str)
    (json : gmap str str) : M response :=
  match json !! lit "user_email", json !! lit "template_id" with
  | Some user_email, Some template_id =>
      let template_file := TEMPLATE_DIR // (template_id ++ lit ".dot") in
      do found <- is_file template_file ;
      if negb found
      then ret (JsonError (lit "Template '" ++ template_id
                           ++ lit "' not found."), 404)
      else
        do r <- attempt (read_text template_file) ;
        match r with
        | inr e =>
            ret (JsonError (lit "Could not read template file: "
                            ++ exn_str e), 500)
        | inl dot_code =>
            let user_folder_name := sanitize_email_for_folder user_email in
            let user_session_dir := SESSION_DIR // user_folder_name in
            run mkdir user_session_dir ;
            let session_id := uuid4 in
            let session_file := user_session_dir // (session_id ++ lit ".dot") in
            do '(output_filename, error_msg) <-
               process_dot_code caps dot_code session_file ;
            if truthy error_msg
            then ret (JsonError (default [] error_msg), 500)
            else ret (JsonSuccess user_email session_id
                        (lit "Template '" ++ template_id
                         ++ lit "' loaded successfully.")
                        output_filename, 200)
        end
  | _, _ =>
      ret (JsonError
             (lit "Request body must include 'user_email' and 'template_id'"),
           400)
  end.

Definition handle_create_request (caps : capabilities) (uuid4 : str)
    (json : gmap str str) : M response :=
  match json !! lit "user_email", json !! lit "prompt" with
  | Some user_email, Some user_prompt =>
      let user_folder_name := sanitize_email_for_folder user_email in
      let user_session_dir := SESSION_DIR // user_folder_name in
      run mkdir user_session_dir ;
      let session_id := uuid4 in
      let session_file := user_session_dir // (session_id ++ lit ".dot") in
      do '(output_filename, error_msg) <-
         process_flowchart_request caps user_prompt session_file true ;
      if truthy error_msg
      then ret (JsonError (default [] error_msg), 500)
      else ret (JsonSuccess user_email session_id
                  (lit "New flowchart PDF created.") output_filename, 200)
  | _, _ =>
      ret (JsonError
             (lit "Request body must include 'user_email' and 'prompt'"), 400)
  end.

Definition handle_add_request (caps : capabilities) (json : gmap str str)
  : M response :=
  match json !! lit "user_email", json !! lit "session_id",
        json !! lit "prompt" with
  | Some user_email, Some session_id, Some user_prompt =>
      let user_folder_name := sanitize_email_for_folder user_email in
      let session_file :=
        SESSION_DIR // user_folder_name // (session_id ++ lit ".dot") in
      do present <- path_exists session_file ;
      if negb present
      then ret (JsonError (lit "Session ID '" ++ session_id
                           ++ lit "' not found for user '" ++ user_email
                           ++ lit "'."), 404)
      else
        do '(output_filename, error_msg) <-
           process_flowchart_request caps user_prompt session_file false ;
        if truthy error_msg
        then ret (JsonError (default [] error_msg), 500)
        else ret (JsonSuccess user_email session_id
                    (lit "Flowchart PDF updated.") output_filename, 200)
  | _, _, _ =>
      ret (JsonError
             (lit "Request body must include 'user_email', 'session_id', and 'prompt'"),
           400)
  end.

(** ** Notions used in the statements *)

(** A string without a path separator. *)
Definition no_sep (s : str) : bool := forallb (fun c => negb (c =? 47)) s.

(** The shape of [str(uuid.uuid4())]: 36 characters, each a lower-case
    hexadecimal digit or a hyphen. *)
Definition uuid_shaped (s : str) : bool :=
  (length s =? 36)%nat
  && forallb (fun c => in_range 48 57 c || in_range 97 102 c || (c =? 45)) s.

(** The session document of a user and a session id, as the three handlers
    build it. *)
Definition session_file_of (user_email session_id : str) : Path :=
  SESSION_DIR // sanitize_email_for_folder user_email
              // (session_id ++ lit ".dot").

(** The temporary image of [process_dot_code]. *)
Definition temp_png_path_of (session_file : Path) : Path :=
  TEMP_DIR // (stem session_file ++ lit ".png").

(** The name [process_dot_code] gives the output document of a session id. *)
Definition artifact_name (session_id : str) : str :=
  lit "flowchart_" ++ stem (PurePath (session_id ++ lit ".dot")) ++ lit ".pdf".

(** The image a Graphviz run leaves for a DOT text: none when the executable
    could not be started or exited with an error. *)
Definition graphviz_image (caps : capabilities) (dot_text : str)
  : option str :=
  match subprocess_raises caps dot_text with
  | Some _ => None
  | None => dot_exe caps dot_text
  end.

(** The pair [process_flowchart_request] returns when the generator gave no
    text. *)
Definition generation_failed : processed :=
  (None, Some (lit "Failed to generate flowchart logic.")).

(** What a handler answers from the pair a [process_] function returned. *)
Definition respond (user_email session_id message : str)
    (r : outcome processed * world) : outcome response * world :=
  match r with
  | (Return (output_filename, error_msg), w') =>
      if truthy error_msg
      then (Return (JsonError (default [] error_msg), 500), w')
      else (Return (JsonSuccess user_email session_id message output_filename,
                    200), w')
  | (Raise e, w') => (Raise e, w')
  end.

(** ** A concrete installation, for the examples *)

Definition json_of (fields : list (string * string)) : gmap str str :=
  list_to_map (List.map (fun kv => (lit (fst kv), lit (snd kv))) fields).

(** Services that always succeed. *)
Definition working_caps : capabilities := {|
  MODEL_generate_content := fun _ => Some (lit "digraph flowchart { A; }");
  dot_exe := fun t => Some (lit "PNG:" ++ t);
  fitz_insert_image := fun _ i => Some (lit "PDF:" ++ i);
  subprocess_raises := fun _ => None
|}.

(** The model call raises. *)
Definition model_down_caps : capabilities := {|
  MODEL_generate_content := fun _ => None;
  dot_exe := dot_exe working_caps;
  fitz_insert_image := fitz_insert_image working_caps;
  subprocess_raises := subprocess_raises working_caps
|}.


(** Graphviz rejects every input. *)
Definition dot_failing_caps : capabilities := {|
  MODEL_generate_content := MODEL_generate_content working_caps;
  dot_exe := fun _ => None;
  fitz_insert_image := fitz_insert_image working_caps;
  subprocess_raises := subprocess_raises working_caps
|}.

(** The model answers with Windows line ends. *)
Definition crlf_text : str :=
  lit "digraph flowchart {" ++ [13; 10] ++ lit "A;" ++ [13; 10] ++ lit "}".

Definition crlf_answer_caps : capabilities := {|
  MODEL_generate_content := fun _ => Some crlf_text;
  dot_exe := dot_exe working_caps;
  fitz_insert_image := fitz_insert_image working_caps;
  subprocess_raises := subprocess_raises working_caps
|}.


Definition alice : str := lit "alice@example.com".
Definition alice_session : str := lit "7d1f3c1e-58a4-4e0b-9a57-0c2f6c0e11aa".
Definition fresh_uuid : str := lit "0b9d4a52-1f0e-4c57-8d3b-5a6e2f7c9d10".

(** One template, the PDF template, and one session of Alice. *)
Definition installed : world := {|
  files :=
    {[ [lit "Template.pdf"] := lit "%PDF";
       [lit "flowchart_templates"; lit "simple_process.dot"] :=
         lit "digraph flowchart { Start -> End; }";
       [lit "session_files"; lit "alice_example_com";
        alice_session ++ lit ".dot"] :=
         lit "digraph flowchart { Secret; }" ]};
  calls := []
|}.

(** The same installation after [Template.pdf] was removed. *)
Definition installed_without_pdf_template : world :=
  set_files installed (delete [lit "Template.pdf"] (files installed)).

(** The Graphviz executable is not where [DOT_PATH] says. *)
Definition dot_missing_caps : capabilities := {|
  MODEL_generate_content := MODEL_generate_content working_caps;
  dot_exe := dot_exe working_caps;
  fitz_insert_image := fitz_insert_image working_caps;
  subprocess_raises := fun _ => Some (FileNotFoundError (PurePath DOT_PATH))
|}.

(** The Graphviz executable may not be run. *)
Definition dot_forbidden_caps : capabilities := {|
  MODEL_generate_content := MODEL_generate_content working_caps;
  dot_exe := dot_exe working_caps;
  fitz_insert_image := fitz_insert_image working_caps;
  subprocess_raises := fun _ => Some (PermissionError DOT_PATH)
|}.

Definition mallory : str := lit "mallory@example.com".
Definition mallory_session : str := lit "3c2b1a09-7f6e-4d5c-8b9a-0f1e2d3c4b5a".

(** The installation after Mallory created a session of her own: her folder
    exists. *)
Definition installed_with_mallory : world :=
  set_files installed
    (<[ [lit "session_files"; lit "mallory_example_com";
         mallory_session ++ lit ".dot"]
        := lit "digraph flowchart { Mine; }" ]> (files installed)).

(** ** Theorems: folder naming *)

Lemma sanitize_cons (c : char) (s : str) :
  sanitize_email_for_folder (c :: s) =
  (if folder_char c then c else 95) :: sanitize_email_for_folder s.
Proof.
  unfold sanitize_email_for_folder; simpl.
  destruct (folder_char c); reflexivity.
Qed.

Lemma sanitize_forall (x : str) :
  Forall (fun c => folder_char c = true) (sanitize_email_for_folder x).
Proof.
  induction x as [|c x IH]; [constructor|].
  rewrite sanitize_cons. constructor; [|exact IH].
  destruct (folder_char c) eqn:E; [exact E | reflexivity].
Qed.

Lemma sanitize_fixed (x : str) :
  Forall (fun c => folder_char c = true) x -> sanitize_email_for_folder x = x.
Proof.
  induction 1 as [|c x Hc _ IH]; [reflexivity|].
  rewrite sanitize_cons, Hc, IH. reflexivity.
Qed.

(** C8: [sanitize_email_for_folder] is a total function of its input (equal
    inputs give equal outputs), its output fully matches [A-Za-z0-9_-]*, and
    position by position a character of the class is kept and any other
    character becomes an underscore. *)
Theorem sanitize_total_deterministic_safe (x : str) :
  (forall y : str, x = y ->
     sanitize_email_for_folder x = sanitize_email_for_folder y)
  /\ matches_folder_pattern (sanitize_email_for_folder x) = true
  /\ (forall (i : nat) (c : char), x !! i = Some c ->
        sanitize_email_for_folder x !! i
        = Some (if folder_char c then c else 95)).
Proof.
  split; [intros y ->; reflexivity|]. split.
  - unfold matches_folder_pattern.
    induction (sanitize_forall x) as [|c s Hc _ IH]; [reflexivity|].
    simpl. rewrite Hc, IH. reflexivity.
  - induction x as [|a x IH]; intros i c Hi; [destruct i; discriminate|].
    rewrite sanitize_cons. destruct i as [|i]; simpl in *.
    + injection Hi as ->. reflexivity.
    + apply IH. exact Hi.
Qed.

Lemma sanitize_total_deterministic_safe_witness :
  sanitize_email_for_folder (lit "a@b.com")
  = sanitize_email_for_folder (lit "a@b.com").
Proof.
  apply (proj1 (sanitize_total_deterministic_safe (lit "a@b.com"))
           (lit "a@b.com")).
  reflexivity.
Defined.

(** C9: sanitising twice is the same as sanitising once, and the output has
    as many characters as the input. *)
Theorem sanitize_idempotent_length (x : str) :
  sanitize_email_for_folder (sanitize_email_for_folder x)
  = sanitize_email_for_folder x
  /\ length (sanitize_email_for_folder x) = length x.
Proof.
  split; [apply sanitize_fixed, sanitize_forall|].
  induction x as [|c x IH]; [reflexivity|].
  rewrite sanitize_cons. simpl. rewrite IH. reflexivity.
Qed.

(** ** The model on concrete inputs *)

Example sanitize_email_example :
  sanitize_email_for_folder (lit "a@b.com") = lit "a_b_com".
Proof. vm_compute. reflexivity. Qed.

Example clean_response_example :
  clean_response_text (lit "  ```dot digraph { a -> b } ```  ")
  = lit "digraph { a -> b }".
Proof. vm_compute. reflexivity. Qed.

Example replace_example : replace (lit "aaaa") (lit "aa") (lit "b") = lit "bb".
Proof. vm_compute. reflexivity. Qed.

Example stem_example :
  stem (session_file_of alice (lit "ab.c")) = lit "ab.c"
  /\ stem (session_file_of alice []) = lit ".dot"
  /\ stem (session_file_of alice (lit "../bob/s1")) = lit "s1".
Proof. repeat split; vm_compute; reflexivity. Qed.

Example resolve_example :
  resolve (TEMPLATE_DIR // lit "../session_files/u/s.dot")
  = [lit "session_files"; lit "u"; lit "s.dot"]
  /\ resolve (TEMPLATE_DIR // lit "/etc/passwd.dot")
     = [lit "/"; lit "etc"; lit "passwd.dot"].
Proof. split; vm_compute; reflexivity. Qed.

Example uuid_examples :
  uuid_shaped fresh_uuid = true /\ uuid_shaped alice_session = true.
Proof. split; vm_compute; reflexivity. Qed.

(** The end-to-end scenario: a create, an append on the session it returned
    (same output name), and an append on an unknown session. *)
Example end_to_end_scenario :
  let user := lit "a@b.com" in
  let r1 := handle_create_request working_caps fresh_uuid
              (json_of [("user_email", "a@b.com");
                        ("prompt", "Start with step A")]%string) installed in
  let r2 := handle_add_request working_caps
              (json_of [("user_email", "a@b.com");
                        ("session_id", "0b9d4a52-1f0e-4c57-8d3b-5a6e2f7c9d10");
                        ("prompt", "Add step B after A")]%string) (snd r1) in
  let r3 := handle_add_request working_caps
              (json_of [("user_email", "a@b.com");
                        ("session_id", "not-a-real-id");
                        ("prompt", "x")]%string) (snd r2) in
  fst r1 = Return (JsonSuccess user fresh_uuid
                     (lit "New flowchart PDF created.")
                     (Some (lit "flowchart_0b9d4a52-1f0e-4c57-8d3b-5a6e2f7c9d10.pdf")),
                   200)
  /\ fst r2 = Return (JsonSuccess user fresh_uuid
                        (lit "Flowchart PDF updated.")
                        (Some (lit "flowchart_0b9d4a52-1f0e-4c57-8d3b-5a6e2f7c9d10.pdf")),
                      200)
  /\ fst r3 = Return (JsonError
                        (lit "Session ID 'not-a-real-id' not found for user 'a@b.com'."),
                      404)
  /\ calls (snd r3)
     = [CallModel (InitialPrompt (lit "Start with step A"));
        CallDot (lit "digraph flowchart { A; }");
        CallFitz (lit "%PDF") (lit "PNG:digraph flowchart { A; }");
        CallModel (ModifyPrompt (lit "digraph flowchart { A; }")
                     (lit "Add step B after A"));
        CallDot (lit "digraph flowchart { A; }");
        CallFitz (lit "%PDF") (lit "PNG:digraph flowchart { A; }")].
Proof. cbv zeta. repeat split; vm_compute; reflexivity. Qed.

(** ** The render stage, step by step *)

Arguments lit : simpl never.
Arguments resolve : simpl never.
Arguments joinpath : simpl never.
Arguments PurePath : simpl never.
Arguments stem : simpl never.

Lemma convert_dot_to_png_eq (caps : capabilities) (d : str) (out : Path)
    (w : world) :
  convert_dot_to_png caps d out w =
  let k := resolve (TEMP_DIR // (stem out ++ lit ".dot")) in
  if encodable d then
    match subprocess_raises caps d with
    | Some e =>
        (match e with FileNotFoundError _ => Return false | _ => Raise e end,
         {| files := delete k (<[k := d]> (files w));
            calls := calls w ++ [CallDot d] |})
    | None =>
        match dot_exe caps d with
        | Some png =>
            (Return true,
             {| files := delete k (<[resolve out := png]>
                                     (<[k := d]> (files w)));
                calls := calls w ++ [CallDot d] |})
        | None =>
            (Return false,
             {| files := delete k (<[k := d]> (files w));
                calls := calls w ++ [CallDot d] |})
        end
    end
  else
    (Raise (UnicodeEncodeError d),
     {| files := <[k := []]> (files w); calls := calls w |}).
Proof.
  unfold convert_dot_to_png.
  set (k := resolve (TEMP_DIR // (stem out ++ lit ".dot"))).
  unfold bind at 1, write_text. fold k.
  destruct (encodable d); [|reflexivity].
  unfold try_finally, subprocess_run_dot, bind, path_exists, unlink,
    set_files, log_call; cbn [files calls]; fold k.
  rewrite lookup_insert_eq.
  destruct (subprocess_raises caps d) as [e|].
  { destruct e; cbn [files calls]; rewrite lookup_insert_eq; cbn;
      rewrite lookup_insert_eq; reflexivity. }
  destruct (dot_exe caps d) as [png|]; cbn [files calls].
  - destruct (decide (resolve out = k)) as [E|E].
    + rewrite E, lookup_insert_eq. cbn. rewrite lookup_insert_eq. reflexivity.
    + rewrite lookup_insert_ne, lookup_insert_eq by exact E. cbn.
      rewrite lookup_insert_ne, lookup_insert_eq by exact E. reflexivity.
  - rewrite lookup_insert_eq. cbn. rewrite lookup_insert_eq. reflexivity.
Qed.

Lemma embed_image_in_pdf_eq (caps : capabilities) (tpl : str)
    (img out : Path) (w : world) :
  embed_image_in_pdf caps tpl img out w =
  match files w !! resolve (PurePath tpl), files w !! resolve img with
  | Some t, Some i =>
      match fitz_insert_image caps t i with
      | Some pdf =>
          (Return true,
           {| files := <[resolve out := pdf]> (files w);
              calls := calls w ++ [CallFitz t i] |})
      | None =>
          (Return false,
           {| files := files w; calls := calls w ++ [CallFitz t i] |})
      end
  | _, _ => (Return false, w)
  end.
Proof.
  unfold embed_image_in_pdf, bind, path_exists, fitz_embed, ret, set_files,
    log_call.
  destruct (files w !! resolve (PurePath tpl)) as [t|] eqn:Et; cbn.
  - rewrite Et. reflexivity.
  - reflexivity.
Qed.

(** ** Paths built from plain names *)

Lemma str_eqb_eq (a b : str) : str_eqb a b = true <-> a = b.
Proof. unfold str_eqb. apply bool_decide_eq_true. Qed.

Lemma str_eqb_neq (a b : str) : a <> b -> str_eqb a b = false.
Proof. unfold str_eqb. intros H. apply bool_decide_eq_false. exact H. Qed.

Lemma no_sep_app (a b : str) :
  no_sep (a ++ b) = no_sep a && no_sep b.
Proof. unfold no_sep. apply forallb_app. Qed.

Lemma no_sep_take (n : nat) (s : str) : no_sep s = true -> no_sep (take n s) = true.
Proof.
  revert n. induction s as [|c s IH]; intros [|n] H; try reflexivity.
  simpl in *. apply andb_true_iff in H as [Hc Hs].
  rewrite Hc. simpl. apply IH. exact Hs.
Qed.

(** Every identifier [uuid.uuid4] can produce is free of separators. *)
Lemma uuid_shaped_no_sep (s : str) : uuid_shaped s = true -> no_sep s = true.
Proof.
  unfold uuid_shaped, no_sep. intros H.
  apply andb_true_iff in H as [_ H].
  induction s as [|c s IH]; [reflexivity|]. simpl in *.
  apply andb_true_iff in H as [Hc Hs]. rewrite (IH Hs), andb_true_r.
  destruct (c =? 47) eqn:E; [|reflexivity].
  apply N.eqb_eq in E. subst c. discriminate Hc.
Qed.

Lemma split_on_nonempty (sep : char) (s : str) : split_on sep s <> [].
Proof.
  destruct s as [|c s]; simpl; [discriminate|].
  destruct (c =? sep); [discriminate|].
  destruct (split_on sep s); discriminate.
Qed.

Lemma split_on_no_sep (s : str) : no_sep s = true -> split_on 47 s = [s].
Proof.
  induction s as [|c s IH]; intros H; [reflexivity|].
  simpl in *. apply andb_true_iff in H as [Hc Hs].
  apply negb_true_iff in Hc. rewrite Hc, (IH Hs). reflexivity.
Qed.

Lemma split_on_parts_no_sep (s : str) :
  Forall (fun p => no_sep p = true) (split_on 47 s).
Proof.
  induction s as [|c s IH]; simpl; [repeat constructor|].
  destruct (c =? 47) eqn:E; [constructor; [reflexivity | exact IH]|].
  destruct (split_on 47 s) as [|p ps]; [repeat constructor; simpl; rewrite E; reflexivity|].
  inversion IH as [|? ? Hp Hps]; subst.
  constructor; [|exact Hps]. simpl. rewrite E, Hp. reflexivity.
Qed.

Lemma split_on_app_no_sep (a b : str) :
  no_sep b = true ->
  split_on 47 (a ++ b) =
  removelast (split_on 47 a) ++ [List.last (split_on 47 a) [] ++ b].
Proof.
  intros Hb. induction a as [|c a IH]; [simpl; apply split_on_no_sep, Hb|].
  simpl. rewrite IH. pose proof (split_on_nonempty 47 a) as Hne.
  destruct (c =? 47).
  - destruct (split_on 47 a) as [|p ps]; [contradiction|]. reflexivity.
  - destruct (split_on 47 a) as [|p [|q qs]]; [contradiction| |]; reflexivity.
Qed.

Lemma last_split_no_sep (s : str) : no_sep (List.last (split_on 47 s) []) = true.
Proof.
  pose proof (split_on_parts_no_sep s) as H.
  pose proof (split_on_nonempty 47 s) as Hne.
  induction H as [|p ps Hp Hps IH]; [contradiction|].
  destruct ps as [|q qs]; [exact Hp|]. apply IH. discriminate.
Qed.

Lemma is_absolute_no_sep (s : str) : no_sep s = true -> is_absolute s = false.
Proof.
  destruct s as [|c s]; [reflexivity|]. simpl. intros H.
  apply andb_true_iff in H as [Hc _]. apply negb_true_iff. exact Hc.
Qed.

Lemma long_not_empty_nor_dot (s : str) :
  (2 <= length s)%nat ->
  negb (str_eqb s []) && negb (str_eqb s (lit ".")) = true.
Proof.
  intros H. rewrite !str_eqb_neq; [reflexivity| |];
    intros ->; simpl in H; lia.
Qed.

Lemma parse_parts_app_no_sep (a b : str) :
  no_sep b = true -> (2 <= length b)%nat ->
  parse_parts (a ++ b) =
  List.filter (fun p => negb (str_eqb p []) && negb (str_eqb p (lit ".")))
              (removelast (split_on 47 a))
  ++ [List.last (split_on 47 a) [] ++ b].
Proof.
  intros Hb Hl. unfold parse_parts.
  rewrite (split_on_app_no_sep a b Hb), List.filter_app. simpl.
  rewrite long_not_empty_nor_dot; [reflexivity|].
  rewrite length_app. lia.
Qed.

Lemma join_plain (p : Path) (s : str) :
  no_sep s = true -> (2 <= length s)%nat -> p // s = p ++ [s].
Proof.
  intros Hs Hl. unfold joinpath. rewrite (is_absolute_no_sep s Hs).
  unfold parse_parts. rewrite (split_on_no_sep s Hs). simpl.
  rewrite (long_not_empty_nor_dot s Hl). reflexivity.
Qed.

Lemma folder_char_no_sep (s : str) :
  Forall (fun c => folder_char c = true) s -> no_sep s = true.
Proof.
  induction 1 as [|c s Hc _ IH]; [reflexivity|]. simpl. rewrite IH.
  destruct (c =? 47) eqn:E; [|reflexivity].
  apply N.eqb_eq in E. subst c. discriminate Hc.
Qed.

Lemma folder_char_not_dots (s : str) :
  Forall (fun c => folder_char c = true) s ->
  s <> lit "." /\ s <> lit "..".
Proof.
  intros H. split; intros ->; inversion H as [|? ? Hc _]; discriminate Hc.
Qed.

Lemma join_folder (p : Path) (f : str) :
  Forall (fun c => folder_char c = true) f ->
  p // f = p ++ (if str_eqb f [] then [] else [f]).
Proof.
  intros Hf. unfold joinpath.
  rewrite (is_absolute_no_sep f (folder_char_no_sep f Hf)).
  unfold parse_parts. rewrite (split_on_no_sep f (folder_char_no_sep f Hf)).
  simpl. destruct (str_eqb f []); [reflexivity|]. simpl.
  rewrite str_eqb_neq; [reflexivity|]. apply folder_char_not_dots, Hf.
Qed.

Lemma name_snoc (q : Path) (n : str) :
  (2 <= length n)%nat -> name (q ++ [n]) = n.
Proof.
  intros H. unfold name. rewrite List.last_last.
  rewrite str_eqb_neq; [reflexivity|]. intros ->. simpl in H. lia.
Qed.

(** The name of a path ending in [session_id ++ ext] is the part of the
    session id after its last separator, followed by [ext]. *)
Lemma name_join_ext (p : Path) (sid ext : str) :
  no_sep ext = true -> (2 <= length ext)%nat ->
  name (p // (sid ++ ext)) = List.last (split_on 47 sid) [] ++ ext.
Proof.
  intros He Hl. unfold joinpath, PurePath.
  rewrite (parse_parts_app_no_sep sid ext He Hl).
  destruct (is_absolute (sid ++ ext)); rewrite !app_assoc;
    apply name_snoc; rewrite length_app; lia.
Qed.

Lemma name_PurePath_ext (sid ext : str) :
  no_sep ext = true -> (2 <= length ext)%nat ->
  name (PurePath (sid ++ ext)) = List.last (split_on 47 sid) [] ++ ext.
Proof.
  intros He Hl. rewrite <- (name_join_ext [] sid ext He Hl).
  unfold joinpath, PurePath. destruct (is_absolute (sid ++ ext)); reflexivity.
Qed.

Lemma stem_of_name (p q : Path) : name p = name q -> stem p = stem q.
Proof. unfold stem. intros ->. reflexivity. Qed.

Lemma stem_no_sep (p : Path) : no_sep (name p) = true -> no_sep (stem p) = true.
Proof.
  intros H. unfold stem. destruct (rfind (name p) 46) as [i|]; [|exact H].
  destruct ((0 <? i)%nat && (i <? length (name p) - 1)%nat); [|exact H].
  apply no_sep_take, H.
Qed.

Lemma resolve_onto_plain (st : list str) (p : Path) :
  Forall (fun x => x <> lit "..") p -> resolve_onto st p = rev st ++ p.
Proof.
  intros H. revert st. induction H as [|x p Hx _ IH]; intros st; simpl.
  - rewrite app_nil_r. reflexivity.
  - rewrite (str_eqb_neq _ _ Hx), IH. simpl. rewrite <- app_assoc. reflexivity.
Qed.

Lemma resolve_plain (p : Path) :
  Forall (fun x => x <> lit "..") p -> resolve p = p.
Proof. intros H. unfold resolve. rewrite (resolve_onto_plain [] p H). reflexivity. Qed.

Lemma long_not_dotdot (s : str) : (3 <= length s)%nat -> s <> lit "..".
Proof. intros H ->. simpl in H. lia. Qed.

(** The whole render stage as one equation on the world. *)
Lemma process_dot_code_eq (caps : capabilities) (d : str) (sf : Path)
    (w : world) :
  process_dot_code caps d sf w =
  let P := resolve (temp_png_path_of sf) in
  let D := resolve (TEMP_DIR // (stem (temp_png_path_of sf) ++ lit ".dot")) in
  let O := resolve (OUTPUT_DIR // (lit "flowchart_" ++ stem sf ++ lit ".pdf")) in
  let f0 := <[resolve sf := d]> (files w) in
  if encodable d then
    match subprocess_raises caps d with
    | Some e =>
        (match e with
         | FileNotFoundError _ =>
             Return (None,
                     Some (lit "Failed to convert flowchart to an image."))
         | _ => Raise e
         end,
         {| files := delete D (<[D := d]> f0);
            calls := calls w ++ [CallDot d] |})
    | None =>
        match dot_exe caps d with
        | None =>
            (Return (None,
                     Some (lit "Failed to convert flowchart to an image.")),
             {| files := delete D (<[D := d]> f0);
                calls := calls w ++ [CallDot d] |})
        | Some png =>
            let f1 := delete D (<[P := png]> (<[D := d]> f0)) in
            match f1 !! resolve (PurePath PDF_TEMPLATE_PATH), f1 !! P with
            | Some t, Some i =>
                match fitz_insert_image caps t i with
                | Some pdf =>
                    (Return (Some (lit "flowchart_" ++ stem sf ++ lit ".pdf"),
                             None),
                     {| files := delete P (<[O := pdf]> f1);
                        calls := (calls w ++ [CallDot d]) ++ [CallFitz t i] |})
                | None =>
                    (Return (None, Some (lit "Failed to embed image in PDF.")),
                     {| files := f1;
                        calls := (calls w ++ [CallDot d]) ++ [CallFitz t i] |})
                end
            | _, _ =>
                (Return (None, Some (lit "Failed to embed image in PDF.")),
                 {| files := f1; calls := calls w ++ [CallDot d] |})
            end
        end
    end
  else
    (Raise (UnicodeEncodeError d),
     {| files := <[resolve sf := []]> (files w); calls := calls w |}).
Proof.
  unfold process_dot_code. fold (temp_png_path_of sf).
  set (P := resolve (temp_png_path_of sf)).
  set (D := resolve (TEMP_DIR // (stem (temp_png_path_of sf) ++ lit ".dot"))).
  set (name_ := lit "flowchart_" ++ stem sf ++ lit ".pdf").
  set (O := resolve (OUTPUT_DIR // name_)).
  set (T := resolve (PurePath PDF_TEMPLATE_PATH)).
  unfold bind at 1. unfold write_text at 1.
  destruct (encodable d) eqn:Henc; [|reflexivity].
  unfold bind at 1.
  rewrite convert_dot_to_png_eq, Henc. fold D. fold P.
  unfold set_files; cbn [files calls].
  destruct (subprocess_raises caps d) as [e|]; [destruct e; reflexivity|].
  destruct (dot_exe caps d) as [png|]; cbn [negb]; [|reflexivity].
  unfold bind at 1. rewrite embed_image_in_pdf_eq. cbn [files calls].
  fold T. fold O. fold P.
  set (f1 := delete D (<[P := png]> (<[D := d]> (<[resolve sf := d]> (files w))))).
  destruct (f1 !! T) as [t|]; [|reflexivity].
  destruct (f1 !! P) as [i|] eqn:Ei; [|reflexivity].
  destruct (fitz_insert_image caps t i) as [pdf|]; cbn [negb]; [|reflexivity].
  unfold bind, path_exists, unlink, ret, set_files; cbn [files calls].
  fold P.
  assert (exists x, <[O := pdf]> f1 !! P = Some x) as [x Hx].
  { destruct (decide (O = P)) as [E|E].
    - exists pdf. rewrite E. apply lookup_insert_eq.
    - exists i. rewrite lookup_insert_ne by exact E. exact Ei. }
  rewrite Hx. cbn. rewrite Hx. reflexivity.
Qed.

(** ** The storage keys of one session *)

Lemma TEMP_DIR_parts : TEMP_DIR = [lit "temp_files"].
Proof. vm_compute. reflexivity. Qed.

Lemma OUTPUT_DIR_parts : OUTPUT_DIR = [lit "outputs"].
Proof. vm_compute. reflexivity. Qed.

Lemma SESSION_DIR_parts : SESSION_DIR = [lit "session_files"].
Proof. vm_compute. reflexivity. Qed.

Lemma template_pdf_key : resolve (PurePath PDF_TEMPLATE_PATH) = [lit "Template.pdf"].
Proof. vm_compute. reflexivity. Qed.

Lemma dir_file_key (dir : str) (n : str) :
  dir <> lit ".." -> no_sep n = true -> (3 <= length n)%nat ->
  resolve ([dir] // n) = [dir; n].
Proof.
  intros Hd Hn Hl. rewrite join_plain by (auto; lia).
  apply resolve_plain. repeat constructor; [exact Hd|].
  apply long_not_dotdot, Hl.
Qed.

Lemma temp_png_path_parts (sf : Path) :
  no_sep (name sf) = true ->
  temp_png_path_of sf = [lit "temp_files"; stem sf ++ lit ".png"].
Proof.
  intros H. unfold temp_png_path_of. rewrite TEMP_DIR_parts.
  apply join_plain.
  - rewrite no_sep_app, (stem_no_sep sf H). reflexivity.
  - rewrite length_app. simpl. lia.
Qed.

Lemma temp_png_key (sf : Path) :
  no_sep (name sf) = true ->
  resolve (temp_png_path_of sf) = [lit "temp_files"; stem sf ++ lit ".png"].
Proof.
  intros H. unfold temp_png_path_of. rewrite TEMP_DIR_parts.
  apply dir_file_key; [discriminate| |rewrite length_app; simpl; lia].
  rewrite no_sep_app, (stem_no_sep sf H). reflexivity.
Qed.

Lemma temp_dot_key (sf : Path) :
  no_sep (name sf) = true ->
  resolve (TEMP_DIR // (stem (temp_png_path_of sf) ++ lit ".dot"))
  = [lit "temp_files"; stem (temp_png_path_of sf) ++ lit ".dot"].
Proof.
  intros H. rewrite TEMP_DIR_parts at 1.
  apply dir_file_key; [discriminate| |rewrite length_app; simpl; lia].
  rewrite no_sep_app, andb_true_r. apply stem_no_sep.
  rewrite (temp_png_path_parts sf H).
  change [lit "temp_files"; stem sf ++ lit ".png"]
    with ([lit "temp_files"] ++ [stem sf ++ lit ".png"]).
  rewrite name_snoc by (rewrite length_app; simpl; lia).
  rewrite no_sep_app, (stem_no_sep sf H). reflexivity.
Qed.

Lemma output_pdf_key (sf : Path) :
  no_sep (name sf) = true ->
  resolve (OUTPUT_DIR // (lit "flowchart_" ++ stem sf ++ lit ".pdf"))
  = [lit "outputs"; lit "flowchart_" ++ stem sf ++ lit ".pdf"].
Proof.
  intros H. rewrite OUTPUT_DIR_parts.
  apply dir_file_key; [discriminate| |rewrite !length_app; simpl; lia].
  rewrite !no_sep_app, (stem_no_sep sf H). reflexivity.
Qed.

Lemma session_name (email sid : str) :
  name (session_file_of email sid) = List.last (split_on 47 sid) [] ++ lit ".dot".
Proof. unfold session_file_of. apply name_join_ext; [reflexivity|simpl; lia]. Qed.

Lemma session_name_no_sep (email sid : str) :
  no_sep (name (session_file_of email sid)) = true.
Proof. rewrite session_name, no_sep_app, last_split_no_sep. reflexivity. Qed.

Lemma session_artifact_name (email sid : str) :
  lit "flowchart_" ++ stem (session_file_of email sid) ++ lit ".pdf"
  = artifact_name sid.
Proof.
  unfold artifact_name. f_equal. f_equal. apply stem_of_name.
  rewrite session_name, name_PurePath_ext; [reflexivity|reflexivity|simpl; lia].
Qed.

(** For a session id without separator the session document is stored under
    the session directory, in the user's folder. *)
Lemma session_key (email sid : str) :
  no_sep sid = true ->
  resolve (session_file_of email sid)
  = lit "session_files"
    :: (if str_eqb (sanitize_email_for_folder email) [] then []
        else [sanitize_email_for_folder email])
    ++ [sid ++ lit ".dot"].
Proof.
  intros H. unfold session_file_of.
  pose proof (sanitize_forall email) as Hf.
  rewrite (join_folder _ _ Hf), SESSION_DIR_parts.
  rewrite join_plain;
    [|rewrite no_sep_app, H; reflexivity|rewrite length_app; simpl; lia].
  apply resolve_plain. constructor; [discriminate|].
  apply Forall_app. split.
  - destruct (str_eqb (sanitize_email_for_folder email) []); constructor;
      [apply folder_char_not_dots, Hf|constructor].
  - constructor; [|constructor]. apply long_not_dotdot.
    rewrite length_app. simpl. lia.
Qed.

(** ** The generator and the three flows, as equations *)

Lemma generate_initial_dot_code_eq (caps : capabilities) (prompt : str)
    (w : world) :
  generate_initial_dot_code caps prompt w =
  (Return (clean_response_text <$> MODEL_generate_content caps (InitialPrompt prompt)),
   log_call w (CallModel (InitialPrompt prompt))).
Proof.
  unfold generate_initial_dot_code, bind, generate_content, ret.
  destruct (MODEL_generate_content caps (InitialPrompt prompt)); reflexivity.
Qed.

Lemma modify_dot_code_eq (caps : capabilities) (current prompt : str)
    (w : world) :
  modify_dot_code caps current prompt w =
  (Return (clean_response_text
             <$> MODEL_generate_content caps (ModifyPrompt current prompt)),
   log_call w (CallModel (ModifyPrompt current prompt))).
Proof.
  unfold modify_dot_code, bind, generate_content, ret.
  destruct (MODEL_generate_content caps (ModifyPrompt current prompt));
    reflexivity.
Qed.

Lemma process_new_eq (caps : capabilities) (prompt : str) (sf : Path)
    (w : world) :
  process_flowchart_request caps prompt sf true w =
  let w1 := log_call w (CallModel (InitialPrompt prompt)) in
  let o := clean_response_text
             <$> MODEL_generate_content caps (InitialPrompt prompt) in
  if truthy o then process_dot_code caps (default [] o) sf w1
  else (Return generation_failed, w1).
Proof.
  unfold process_flowchart_request, bind at 1.
  rewrite generate_initial_dot_code_eq. cbv zeta.
  destruct (truthy _); reflexivity.
Qed.

Lemma process_existing_eq (caps : capabilities) (prompt current : str)
    (sf : Path) (w : world) :
  fst (read_text sf w) = Return current ->
  process_flowchart_request caps prompt sf false w =
  let w1 := log_call w (CallModel (ModifyPrompt current prompt)) in
  let o := clean_response_text
             <$> MODEL_generate_content caps (ModifyPrompt current prompt) in
  if truthy o then process_dot_code caps (default [] o) sf w1
  else (Return generation_failed, w1).
Proof.
  intros H. unfold process_flowchart_request, bind at 1.
  unfold bind at 1. unfold read_text in *.
  destruct (files w !! resolve sf) as [raw|]; [|discriminate H].
  cbn [fst] in H. injection H as ->.
  rewrite modify_dot_code_eq. cbv zeta.
  destruct (truthy _); reflexivity.
Qed.

Lemma read_text_stored (sf : Path) (w : world) (raw : str) :
  files w !! resolve sf = Some raw ->
  read_text sf w = (Return (universal_newlines raw), w).
Proof. intros H. unfold read_text. rewrite H. reflexivity. Qed.

Lemma read_text_returns (sf : Path) (w : world) (t : str) :
  fst (read_text sf w) = Return t ->
  exists raw, files w !! resolve sf = Some raw /\ t = universal_newlines raw.
Proof.
  unfold read_text. destruct (files w !! resolve sf) as [raw|];
    [|discriminate].
  cbn [fst]. intros H. injection H as <-. eauto.
Qed.

(** Universal newlines leave no carriage return, and change nothing in a
    text without one: reading twice translates once. *)
Lemma universal_newlines_no_cr (n : nat) (s : str) :
  (length s <= n)%nat ->
  forallb (fun c => negb (c =? 13)) (universal_newlines s) = true.
Proof.
  revert s. induction n as [|n IH]; intros s Hl.
  - destruct s; [reflexivity|simpl in Hl; lia].
  - destruct s as [|c s]; [reflexivity|]. simpl in Hl.
    cbn [universal_newlines]. destruct (c =? 13) eqn:Ec.
    + destruct s as [|c' s]; [reflexivity|]. simpl in Hl.
      destruct (c' =? 10); cbn [forallb]; change (10 =? 13) with false;
        cbn [negb andb]; apply IH; simpl; lia.
    + cbn [forallb]. rewrite Ec. cbn [negb andb]. apply IH. lia.
Qed.

Lemma universal_newlines_fixed (s : str) :
  forallb (fun c => negb (c =? 13)) s = true -> universal_newlines s = s.
Proof.
  induction s as [|c s IH]; [reflexivity|]. cbn [forallb universal_newlines].
  intros H. apply andb_true_iff in H as [Hc Hs].
  apply negb_true_iff in Hc. rewrite Hc, (IH Hs). reflexivity.
Qed.

Lemma universal_newlines_idem (s : str) :
  universal_newlines (universal_newlines s) = universal_newlines s.
Proof.
  apply universal_newlines_fixed, (universal_newlines_no_cr (length s)).
  reflexivity.
Qed.

Lemma handle_create_request_eq (caps : capabilities) (uuid4 : str)
    (json : gmap str str) (email prompt : str) (w : world) :
  json !! lit "user_email" = Some email ->
  json !! lit "prompt" = Some prompt ->
  handle_create_request caps uuid4 json w =
  respond email uuid4 (lit "New flowchart PDF created.")
    (process_flowchart_request caps prompt (session_file_of email uuid4) true w).
Proof.
  intros He Hp. unfold handle_create_request.
  destruct (json !! lit "user_email") as [e|]; [|discriminate He].
  destruct (json !! lit "prompt") as [p|]; [|discriminate Hp].
  injection He as ->. injection Hp as ->.
  unfold respond, mkdir, session_file_of.
  unfold bind at 1, ret at 1. unfold bind at 1.
  destruct (process_flowchart_request _ _ _ _ _) as [[[o e]|x] w'];
    [|reflexivity].
  destruct (truthy e); reflexivity.
Qed.

Lemma handle_add_request_eq (caps : capabilities) (json : gmap str str)
    (email sid prompt : str) (w : world) :
  json !! lit "user_email" = Some email ->
  json !! lit "session_id" = Some sid ->
  json !! lit "prompt" = Some prompt ->
  handle_add_request caps json w =
  match files w !! resolve (session_file_of email sid) with
  | Some _ =>
      respond email sid (lit "Flowchart PDF updated.")
        (process_flowchart_request caps prompt (session_file_of email sid)
           false w)
  | None =>
      (Return (JsonError (lit "Session ID '" ++ sid
                          ++ lit "' not found for user '" ++ email
                          ++ lit "'."), 404), w)
  end.
Proof.
  intros He Hs Hp. unfold handle_add_request.
  destruct (json !! lit "user_email") as [e|]; [|discriminate He].
  destruct (json !! lit "session_id") as [s|]; [|discriminate Hs].
  destruct (json !! lit "prompt") as [p|]; [|discriminate Hp].
  injection He as ->. injection Hs as ->. injection Hp as ->.
  fold (session_file_of email sid).
  unfold bind at 1, path_exists at 1.
  destruct (files w !! resolve (session_file_of email sid)) as [c|];
    [|reflexivity].
  rewrite bool_decide_eq_true_2 by eauto. cbn [negb].
  unfold respond, bind at 1.
  destruct (process_flowchart_request _ _ _ _ _) as [[[o e]|x] w'];
    [|reflexivity].
  destruct (truthy e); reflexivity.
Qed.

Lemma handle_load_template_request_eq (caps : capabilities) (uuid4 : str)
    (json : gmap str str) (email tid : str) (w : world) :
  json !! lit "user_email" = Some email ->
  json !! lit "template_id" = Some tid ->
  handle_load_template_request caps uuid4 json w =
  match files w !! resolve (TEMPLATE_DIR // (tid ++ lit ".dot")) with
  | Some raw =>
      respond email uuid4
        (lit "Template '" ++ tid ++ lit "' loaded successfully.")
        (process_dot_code caps (universal_newlines raw)
           (session_file_of email uuid4) w)
  | None =>
      (Return (JsonError (lit "Template '" ++ tid ++ lit "' not found."), 404),
       w)
  end.
Proof.
  intros He Ht. unfold handle_load_template_request.
  destruct (json !! lit "user_email") as [e|]; [|discriminate He].
  destruct (json !! lit "template_id") as [t|]; [|discriminate Ht].
  injection He as ->. injection Ht as ->.
  unfold bind at 1, is_file, path_exists at 1.
  destruct (files w !! resolve (TEMPLATE_DIR // (tid ++ lit ".dot")))
    as [c|] eqn:E; [|reflexivity].
  rewrite bool_decide_eq_true_2 by eauto. cbn [negb].
  unfold bind at 1, attempt, read_text. rewrite E.
  unfold respond, mkdir, session_file_of.
  unfold bind at 1, ret at 1. unfold bind at 1.
  destruct (process_dot_code _ _ _ _) as [[[o e]|x] w']; [|reflexivity].
  destruct (truthy e); reflexivity.
Qed.

(** ** The append flow on an unknown session *)

(** Where the 404 is answered: the path built from the namespace and the
    presented session id leads to no stored file.  The storage and the call
    log are then as they were. *)
Lemma append_absent_document_not_found (caps : capabilities)
    (json : gmap str str) (email sid prompt : str) (w : world) :
  json !! lit "user_email" = Some email ->
  json !! lit "session_id" = Some sid ->
  json !! lit "prompt" = Some prompt ->
  fst (path_exists (session_file_of email sid) w) = Return false ->
  handle_add_request caps json w =
  (Return (JsonError (lit "Session ID '" ++ sid
                      ++ lit "' not found for user '" ++ email ++ lit "'."),
           404), w).
Proof.
  intros He Hs Hp Hx.
  rewrite (handle_add_request_eq caps json email sid prompt w He Hs Hp).
  unfold path_exists in Hx. cbn [fst] in Hx.
  destruct (files w !! resolve (session_file_of email sid)) as [c|];
    [|reflexivity].
  rewrite bool_decide_eq_true_2 in Hx by eauto. discriminate Hx.
Qed.

(** C7 fails on the code: [handle_add_request] sanitizes the user's
    identifier before it becomes a folder name, but puts the session id into
    the path as it comes and only asks whether that path exists.  Mallory
    owns one session, so her folder exists and holds exactly one document.
    She presents the id ["../alice_example_com/7d1f3c1e-..."], under which
    her namespace stores nothing.  The handler does not answer 404 "Session
    ID ... not found for user ...": it answers 200, sends Alice's document
    to the model and replaces Alice's document by the model's output. *)
Theorem append_accepts_foreign_session_id :
  let sid := lit "../alice_example_com/7d1f3c1e-58a4-4e0b-9a57-0c2f6c0e11aa" in
  let json := json_of [("user_email", "mallory@example.com");
                       ("session_id", "../alice_example_com/7d1f3c1e-58a4-4e0b-9a57-0c2f6c0e11aa");
                       ("prompt", "Delete every step")]%string in
  let w := installed_with_mallory in
  let r := handle_add_request working_caps json w in
  (forall (file_name text : str),
     files w !! [lit "session_files"; sanitize_email_for_folder mallory;
                 file_name] = Some text ->
     file_name = mallory_session ++ lit ".dot")
  /\ sid <> mallory_session
  /\ fst r = Return (JsonSuccess mallory sid (lit "Flowchart PDF updated.")
                       (Some (artifact_name alice_session)), 200)
  /\ calls (snd r)
     = [CallModel (ModifyPrompt (lit "digraph flowchart { Secret; }")
                     (lit "Delete every step"));
        CallDot (lit "digraph flowchart { A; }");
        CallFitz (lit "%PDF") (lit "PNG:digraph flowchart { A; }")]
  /\ files w !! resolve (session_file_of alice alice_session)
     = Some (lit "digraph flowchart { Secret; }")
  /\ files (snd r) !! resolve (session_file_of alice alice_session)
     = Some (lit "digraph flowchart { A; }")
  /\ files (snd r) !! resolve (session_file_of mallory mallory_session)
     = Some (lit "digraph flowchart { Mine; }").
Proof.
  cbv zeta. split.
  { intros file_name text H.
    destruct (decide (file_name = mallory_session ++ lit ".dot")) as [E|E];
      [exact E|exfalso].
    unfold installed_with_mallory, set_files, installed in H.
    cbn [files] in H.
    rewrite lookup_insert_ne in H
      by (intros X; vm_compute in X; injection X as X; apply E;
          vm_compute; symmetry; exact X).
    rewrite !lookup_insert_ne in H
      by (intros X; vm_compute in X; discriminate X).
    rewrite lookup_singleton_ne in H
      by (intros X; vm_compute in X; discriminate X).
    discriminate H. }
  split; [intros E; vm_compute in E; discriminate E|].
  repeat split; vm_compute; reflexivity.
Qed.

(** ** Generation failures *)

Lemma respond_generation_failed (email sid msg : str) (w : world) :
  respond email sid msg (Return generation_failed, w)
  = (Return (JsonError (lit "Failed to generate flowchart logic."), 500), w).
Proof. reflexivity. Qed.

Lemma create_without_text (caps : capabilities) (uuid4 : str)
    (json : gmap str str) (email prompt : str) (w : world) (o : option str) :
  json !! lit "user_email" = Some email ->
  json !! lit "prompt" = Some prompt ->
  fst (generate_initial_dot_code caps prompt w) = Return o ->
  truthy o = false ->
  handle_create_request caps uuid4 json w
  = (Return (JsonError (lit "Failed to generate flowchart logic."), 500),
     log_call w (CallModel (InitialPrompt prompt))).
Proof.
  intros He Hp Hg Ho.
  rewrite (handle_create_request_eq caps uuid4 json email prompt w He Hp).
  rewrite process_new_eq. cbv zeta.
  rewrite generate_initial_dot_code_eq in Hg. injection Hg as Hg.
  rewrite Hg, Ho. apply respond_generation_failed.
Qed.

Lemma append_without_text (caps : capabilities) (json : gmap str str)
    (email sid prompt current : str) (w : world) (o : option str) :
  json !! lit "user_email" = Some email ->
  json !! lit "session_id" = Some sid ->
  json !! lit "prompt" = Some prompt ->
  fst (read_text (session_file_of email sid) w) = Return current ->
  fst (modify_dot_code caps current prompt w) = Return o ->
  truthy o = false ->
  handle_add_request caps json w
  = (Return (JsonError (lit "Failed to generate flowchart logic."), 500),
     log_call w (CallModel (ModifyPrompt current prompt))).
Proof.
  intros He Hs Hp Hr Hg Ho.
  rewrite (handle_add_request_eq caps json email sid prompt w He Hs Hp).
  destruct (read_text_returns _ _ _ Hr) as (raw & E & _). rewrite E.
  rewrite (process_existing_eq caps prompt current _ w Hr). cbv zeta.
  rewrite modify_dot_code_eq in Hg. injection Hg as Hg.
  rewrite Hg, Ho. apply respond_generation_failed.
Qed.

(** C3: when the generator yields no text, the create handler answers 500
    "Failed to generate flowchart logic." and the storage is exactly what it
    was (no session document appears), and the append handler gives the same
    answer and the stored document still reads as before the call. *)
Theorem generation_failure_persists_nothing (caps : capabilities)
    (uuid4 : str) (json_create json_add : gmap str str)
    (email prompt sid current : str) (w : world) :
  (forall o : option str,
     json_create !! lit "user_email" = Some email ->
     json_create !! lit "prompt" = Some prompt ->
     fst (generate_initial_dot_code caps prompt w) = Return o ->
     truthy o = false ->
     exists w',
       handle_create_request caps uuid4 json_create w
       = (Return (JsonError (lit "Failed to generate flowchart logic."), 500),
          w')
       /\ files w' = files w)
  /\ (forall o : option str,
        json_add !! lit "user_email" = Some email ->
        json_add !! lit "session_id" = Some sid ->
        json_add !! lit "prompt" = Some prompt ->
        fst (read_text (session_file_of email sid) w) = Return current ->
        fst (modify_dot_code caps current prompt w) = Return o ->
        truthy o = false ->
        exists w',
          handle_add_request caps json_add w
          = (Return (JsonError (lit "Failed to generate flowchart logic."),
                     500), w')
          /\ files w' = files w
          /\ read_text (session_file_of email sid) w' = (Return current, w')).
Proof.
  split.
  - intros o He Hp Hg Ho. eexists. split.
    + apply (create_without_text caps uuid4 json_create email prompt w o);
        assumption.
    + reflexivity.
  - intros o He Hs Hp Hr Hg Ho. eexists. split; [|split].
    + apply (append_without_text caps json_add email sid prompt current w o);
        assumption.
    + reflexivity.
    + unfold read_text in *. cbn [files log_call].
      destruct (files w !! resolve (session_file_of email sid));
        [|discriminate Hr].
      cbn [fst] in Hr. injection Hr as <-. reflexivity.
Qed.

Lemma generation_failure_persists_nothing_witness :
  (exists w',
     handle_create_request model_down_caps fresh_uuid
       (json_of [("user_email", "alice@example.com");
                 ("prompt", "Start with step A")]%string) installed
     = (Return (JsonError (lit "Failed to generate flowchart logic."), 500), w')
     /\ files w' = files installed)
  /\ (exists w',
        handle_add_request model_down_caps
          (json_of [("user_email", "alice@example.com");
                    ("session_id", "7d1f3c1e-58a4-4e0b-9a57-0c2f6c0e11aa");
                    ("prompt", "Start with step A")]%string) installed
        = (Return (JsonError (lit "Failed to generate flowchart logic."), 500),
           w')
        /\ files w' = files installed
        /\ read_text (session_file_of alice alice_session) w'
           = (Return (lit "digraph flowchart { Secret; }"), w')).
Proof.
  destruct (generation_failure_persists_nothing model_down_caps fresh_uuid
              (json_of [("user_email", "alice@example.com");
                        ("prompt", "Start with step A")]%string)
              (json_of [("user_email", "alice@example.com");
                        ("session_id", "7d1f3c1e-58a4-4e0b-9a57-0c2f6c0e11aa");
                        ("prompt", "Start with step A")]%string)
              alice (lit "Start with step A") alice_session
              (lit "digraph flowchart { Secret; }") installed) as [Hc Ha].
  split.
  - apply (Hc None); vm_compute; reflexivity.
  - apply (Ha None); vm_compute; reflexivity.
Defined.



(** ** Distinct storage keys *)

Lemma suffix_png_dot (a b : str) : a ++ lit ".png" <> b ++ lit ".dot".
Proof.
  intros E. apply (f_equal (fun s => List.last s 0)) in E.
  change (lit ".png") with ([46; 112; 110] ++ [103]) in E.
  change (lit ".dot") with ([46; 100; 111] ++ [116]) in E.
  rewrite !app_assoc, !List.last_last in E. discriminate E.
Qed.

Lemma suffix_pdf_png (a b : str) : a ++ lit ".pdf" <> b ++ lit ".png".
Proof.
  intros E. apply (f_equal (fun s => List.last s 0)) in E.
  change (lit ".pdf") with ([46; 112; 100] ++ [102]) in E.
  change (lit ".png") with ([46; 112; 110] ++ [103]) in E.
  rewrite !app_assoc, !List.last_last in E. discriminate E.
Qed.

Lemma suffix_pdf_dot (a b : str) : a ++ lit ".pdf" <> b ++ lit ".dot".
Proof.
  intros E. apply (f_equal (fun s => List.last s 0)) in E.
  change (lit ".pdf") with ([46; 112; 100] ++ [102]) in E.
  change (lit ".dot") with ([46; 100; 111] ++ [116]) in E.
  rewrite !app_assoc, !List.last_last in E. discriminate E.
Qed.

(** The temporary image, the temporary DOT file and the output document of a
    session file with a separator-free name are three different files. *)
Lemma render_keys_distinct (sf : Path) :
  no_sep (name sf) = true ->
  let P := resolve (temp_png_path_of sf) in
  let D := resolve (TEMP_DIR // (stem (temp_png_path_of sf) ++ lit ".dot")) in
  let O := resolve (OUTPUT_DIR // (lit "flowchart_" ++ stem sf ++ lit ".pdf")) in
  P <> D /\ O <> P /\ O <> D.
Proof.
  intros H. cbv zeta.
  rewrite (temp_png_key sf H), (temp_dot_key sf H), (output_pdf_key sf H).
  split; [|split]; intros E; injection E.
  - apply suffix_png_dot.
  - intros _ E1. vm_compute in E1. discriminate E1.
  - intros _ E1. vm_compute in E1. discriminate E1.
Qed.

(** For a separator-free session id, the session document is none of them. *)
Lemma session_key_apart (email sid : str) :
  no_sep sid = true ->
  let sf := session_file_of email sid in
  resolve sf <> resolve (temp_png_path_of sf)
  /\ resolve sf <> resolve (TEMP_DIR // (stem (temp_png_path_of sf) ++ lit ".dot"))
  /\ resolve sf
     <> resolve (OUTPUT_DIR // (lit "flowchart_" ++ stem sf ++ lit ".pdf")).
Proof.
  intros H. cbv zeta.
  pose proof (session_name_no_sep email sid) as Hn.
  rewrite (temp_png_key _ Hn), (temp_dot_key _ Hn), (output_pdf_key _ Hn).
  rewrite (session_key email sid H).
  split; [|split]; intros E; injection E; intros _ E1;
    vm_compute in E1; discriminate E1.
Qed.

(** ** Outcomes of the render stage *)

(** The three ways the render stage returns, with the storage and the
    calls each leaves. *)
Lemma process_dot_code_outcomes (caps : capabilities) (d : str) (sf : Path)
    (w : world) (r : processed) :
  fst (process_dot_code caps d sf w) = Return r ->
  let P := resolve (temp_png_path_of sf) in
  let D := resolve (TEMP_DIR // (stem (temp_png_path_of sf) ++ lit ".dot")) in
  let O := resolve (OUTPUT_DIR // (lit "flowchart_" ++ stem sf ++ lit ".pdf")) in
  let f0 := <[resolve sf := d]> (files w) in
  (exists w', process_dot_code caps d sf w
              = (Return (None, Some (lit "Failed to convert flowchart to an image.")), w')
              /\ graphviz_image caps d = None
              /\ files w' = delete D (<[D := d]> f0)
              /\ calls w' = calls w ++ [CallDot d])
  \/ (exists w' png, process_dot_code caps d sf w
              = (Return (None, Some (lit "Failed to embed image in PDF.")), w')
              /\ dot_exe caps d = Some png
              /\ files w' = delete D (<[P := png]> (<[D := d]> f0))
              /\ exists rest, calls w' = calls w ++ CallDot d :: rest)
  \/ (exists w' png pdf, process_dot_code caps d sf w
              = (Return (Some (lit "flowchart_" ++ stem sf ++ lit ".pdf"), None), w')
              /\ dot_exe caps d = Some png
              /\ files w'
                 = delete P (<[O := pdf]>
                               (delete D (<[P := png]> (<[D := d]> f0))))
              /\ exists rest, calls w' = calls w ++ CallDot d :: rest).
Proof.
  intros Hr. cbv zeta. unfold graphviz_image.
  rewrite process_dot_code_eq in Hr |- *. cbv zeta in *.
  destruct (encodable d); [|discriminate Hr].
  destruct (subprocess_raises caps d) as [e|].
  { left. destruct e; try discriminate Hr. eexists. repeat split. }
  clear Hr.
  destruct (dot_exe caps d) as [png|].
  - destruct (_ !! resolve (PurePath PDF_TEMPLATE_PATH)) as [t|].
    + destruct (_ !! resolve (temp_png_path_of sf)) as [i|].
      * destruct (fitz_insert_image caps t i) as [pdf|].
        -- right; right. eexists _, png, pdf. repeat split.
           exists [CallFitz t i]. cbn [calls]. rewrite <- app_assoc. reflexivity.
        -- right; left. eexists _, png. repeat split.
           exists [CallFitz t i]. cbn [calls]. rewrite <- app_assoc. reflexivity.
      * right; left. eexists _, png. repeat split. exists []. reflexivity.
    + right; left. eexists _, png. repeat split. exists []. reflexivity.
  - left. eexists. repeat split.
Qed.

(** The two ways the render stage raises: the text cannot be encoded, and
    the session document is left empty; or the Graphviz executable cannot be
    started for a reason other than its absence, after the session document
    was written. *)
Lemma process_dot_code_raises (caps : capabilities) (d : str) (sf : Path)
    (w : world) (e : exn) :
  fst (process_dot_code caps d sf w) = Raise e ->
  let D := resolve (TEMP_DIR // (stem (temp_png_path_of sf) ++ lit ".dot")) in
  (encodable d = false
   /\ e = UnicodeEncodeError d
   /\ snd (process_dot_code caps d sf w)
      = {| files := <[resolve sf := []]> (files w); calls := calls w |})
  \/ (encodable d = true
      /\ subprocess_raises caps d = Some e
      /\ snd (process_dot_code caps d sf w)
         = {| files := delete D (<[D := d]> (<[resolve sf := d]> (files w)));
              calls := calls w ++ [CallDot d] |}).
Proof.
  rewrite process_dot_code_eq. cbv zeta.
  destruct (encodable d).
  - destruct (subprocess_raises caps d) as [e'|].
    + cbn [fst snd]. intros H. right.
      destruct e'; try discriminate H; injection H as <-; auto.
    + destruct (dot_exe caps d); [|discriminate].
      destruct (_ !! resolve (PurePath PDF_TEMPLATE_PATH)); [|discriminate].
      destruct (_ !! resolve (temp_png_path_of sf)); [|discriminate].
      destruct (fitz_insert_image caps _ _); discriminate.
  - cbn [fst snd]. intros H. injection H as <-. left. auto.
Qed.

(** The document a successful stage stores is what the embedder made of the
    template and of the image Graphviz drew from the text. *)
Lemma process_dot_code_document (caps : capabilities) (d : str) (sf : Path)
    (w : world) (out : str) (err : option str) :
  no_sep (name sf) = true ->
  fst (process_dot_code caps d sf w) = Return (Some out, err) ->
  let O := resolve (OUTPUT_DIR // (lit "flowchart_" ++ stem sf ++ lit ".pdf")) in
  exists t png pdf,
    dot_exe caps d = Some png
    /\ fitz_insert_image caps t png = Some pdf
    /\ files (snd (process_dot_code caps d sf w)) !! O = Some pdf.
Proof.
  intros Hn. cbv zeta.
  destruct (render_keys_distinct sf Hn) as (HPD & HOP & HOD).
  rewrite process_dot_code_eq. cbv zeta.
  destruct (encodable d); [|discriminate].
  destruct (subprocess_raises caps d) as [e|]; [destruct e; discriminate|].
  destruct (dot_exe caps d) as [png|]; [|discriminate].
  rewrite (lookup_delete_ne _ _ (resolve (temp_png_path_of sf)))
    by (intros E; apply HPD; symmetry; exact E).
  rewrite lookup_insert_eq.
  destruct (_ !! resolve (PurePath PDF_TEMPLATE_PATH)) as [t|]; [|discriminate].
  destruct (fitz_insert_image caps t png) as [pdf|] eqn:Ef; [|discriminate].
  cbn [fst snd files]. intros _. exists t, png, pdf.
  split; [reflexivity|]. split; [exact Ef|].
  rewrite lookup_delete_ne by (intros E; apply HOP; symmetry; exact E).
  apply lookup_insert_eq.
Qed.

Lemma process_dot_code_calls (caps : capabilities) (d : str) (sf : Path)
    (w : world) :
  exists rest, calls (snd (process_dot_code caps d sf w)) = calls w ++ rest.
Proof.
  destruct (fst (process_dot_code caps d sf w)) as [r|e] eqn:E.
  - destruct (process_dot_code_outcomes caps d sf w r E)
      as [(w' & -> & _ & _ & Hc)|[(w' & png & -> & _ & _ & rest & Hc)
         |(w' & png & pdf & -> & _ & _ & rest & Hc)]]; cbn [snd]; eauto.
  - destruct (process_dot_code_raises caps d sf w e E)
      as [(_ & _ & ->)|(_ & _ & ->)]; cbn [calls]; eauto.
    exists []. rewrite app_nil_r. reflexivity.
Qed.

Lemma respond_world (email sid msg : str) (r : outcome processed * world) :
  snd (respond email sid msg r) = snd r.
Proof.
  destruct r as [[[o e]|x] w]; cbn [respond snd]; [|reflexivity].
  destruct (truthy e); reflexivity.
Qed.

Lemma respond_success (email sid msg : str) (r : outcome processed * world)
    (email' sid' msg' : str) (out : option str) (code : N) (w' : world) :
  respond email sid msg r
  = (Return (JsonSuccess email' sid' msg' out, code), w') ->
  exists err, r = (Return (out, err), w') /\ truthy err = false
              /\ email' = email /\ sid' = sid.
Proof.
  destruct r as [[[o e]|x] w]; cbn [respond]; [|discriminate].
  destruct (truthy e) eqn:Ht; [discriminate|].
  intros H. inversion H; subst. eauto.
Qed.

(** ** Render failures keep the session document *)





Lemma process_dot_code_success (caps : capabilities) (d : str) (sf : Path)
    (w : world) (out : option str) (err : option str) (w' : world) :
  process_dot_code caps d sf w = (Return (out, err), w') ->
  truthy err = false ->
  let P := resolve (temp_png_path_of sf) in
  let D := resolve (TEMP_DIR // (stem (temp_png_path_of sf) ++ lit ".dot")) in
  let O := resolve (OUTPUT_DIR // (lit "flowchart_" ++ stem sf ++ lit ".pdf")) in
  out = Some (lit "flowchart_" ++ stem sf ++ lit ".pdf")
  /\ exists png pdf,
       dot_exe caps d = Some png
       /\ files w'
          = delete P (<[O := pdf]>
               (delete D (<[P := png]> (<[D := d]>
                  (<[resolve sf := d]> (files w)))))).
Proof.
  intros Hr Ht. cbv zeta.
  assert (fst (process_dot_code caps d sf w) = Return (out, err)) as Hfst
    by (rewrite Hr; reflexivity).
  destruct (process_dot_code_outcomes caps d sf w _ Hfst)
    as [(w1 & Hr1 & _)|[(w1 & png & Hr1 & _)
       |(w1 & png & pdf & Hr1 & Hdot & Hf & _)]];
    rewrite Hr1 in Hr; inversion Hr; subst.
  - discriminate Ht.
  - discriminate Ht.
  - split; [reflexivity|]. eauto.
Qed.

(** ** A successful create stores the generator's output *)

(** C5: when [handle_create_request] answers with success, the session id in
    the answer is the fresh one, and the document stored for it holds the
    text [generate_initial_dot_code] returned for the prompt, character for
    character; reading the document gives that text under universal
    newlines. *)
Theorem create_persists_generator_output (caps : capabilities) (uuid4 : str)
    (json : gmap str str) (email prompt : str) (w : world)
    (email' sid msg : str) (out : option str) :
  json !! lit "user_email" = Some email ->
  json !! lit "prompt" = Some prompt ->
  no_sep uuid4 = true ->
  fst (handle_create_request caps uuid4 json w)
  = Return (JsonSuccess email' sid msg out, 200) ->
  let w' := snd (handle_create_request caps uuid4 json w) in
  sid = uuid4
  /\ exists d,
       fst (generate_initial_dot_code caps prompt w) = Return (Some d)
       /\ files w' !! resolve (session_file_of email sid) = Some d
       /\ fst (read_text (session_file_of email sid) w')
          = Return (universal_newlines d).
Proof.
  intros He Hp Hsid H w'.
  assert (handle_create_request caps uuid4 json w
          = (Return (JsonSuccess email' sid msg out, 200), w')) as H'.
  { subst w'. rewrite <- H. apply surjective_pairing. }
  clear H. rename H' into H. clearbody w'.
  rewrite (handle_create_request_eq caps uuid4 json email prompt w He Hp) in H.
  apply respond_success in H as (err & Hr & Ht & -> & ->).
  split; [reflexivity|].
  rewrite process_new_eq in Hr. cbv zeta in Hr.
  rewrite generate_initial_dot_code_eq. cbn [fst].
  destruct (clean_response_text
              <$> MODEL_generate_content caps (InitialPrompt prompt))
    as [d|] eqn:Eo; cbn [truthy] in Hr.
  2:{ inversion Hr; subst. discriminate Ht. }
  destruct (str_truthy d).
  2:{ inversion Hr; subst. discriminate Ht. }
  exists d. split; [reflexivity|]. cbn [default] in Hr.
  destruct (process_dot_code_success _ _ _ _ _ _ _ Hr Ht)
    as (_ & png & pdf & _ & Hf).
  destruct (session_key_apart email uuid4 Hsid) as (HP & HD & HO).
  assert (files w' !! resolve (session_file_of email uuid4) = Some d) as Hl.
  { rewrite Hf.
    rewrite lookup_delete_ne, lookup_insert_ne, lookup_delete_ne,
      lookup_insert_ne, lookup_insert_ne, lookup_insert_eq by congruence.
    reflexivity. }
  split; [exact Hl|]. rewrite (read_text_stored _ _ _ Hl). reflexivity.
Qed.

Lemma create_persists_generator_output_witness :
  let w' := snd (handle_create_request crlf_answer_caps fresh_uuid
                   (json_of [("user_email", "alice@example.com");
                             ("prompt", "Start with step A")]%string)
                   installed) in
  fresh_uuid = fresh_uuid
  /\ exists d,
       fst (generate_initial_dot_code crlf_answer_caps
              (lit "Start with step A") installed) = Return (Some d)
       /\ files w' !! resolve (session_file_of alice fresh_uuid) = Some d
       /\ fst (read_text (session_file_of alice fresh_uuid) w')
          = Return (universal_newlines d).
Proof.
  apply (create_persists_generator_output crlf_answer_caps fresh_uuid
           (json_of [("user_email", "alice@example.com");
                     ("prompt", "Start with step A")]%string)
           alice (lit "Start with step A") installed
           alice fresh_uuid (lit "New flowchart PDF created.")
           (Some (artifact_name fresh_uuid)));
    vm_compute; reflexivity.
Defined.

(** ** The name of the output document *)

Lemma process_dot_code_named (caps : capabilities) (d : str) (sf : Path)
    (w : world) (out : str) (err : option str) :
  fst (process_dot_code caps d sf w) = Return (Some out, err) ->
  let P := resolve (temp_png_path_of sf) in
  let D := resolve (TEMP_DIR // (stem (temp_png_path_of sf) ++ lit ".dot")) in
  let O := resolve (OUTPUT_DIR // (lit "flowchart_" ++ stem sf ++ lit ".pdf")) in
  out = lit "flowchart_" ++ stem sf ++ lit ".pdf"
  /\ err = None
  /\ exists png pdf,
       files (snd (process_dot_code caps d sf w))
       = delete P (<[O := pdf]>
            (delete D (<[P := png]> (<[D := d]>
               (<[resolve sf := d]> (files w)))))).
Proof.
  intros Hr. cbv zeta.
  destruct (process_dot_code_outcomes caps d sf w _ Hr)
    as [(w1 & Hr1 & _)|[(w1 & png & Hr1 & _)
       |(w1 & png & pdf & Hr1 & _ & Hf & _)]];
    rewrite Hr1 in Hr |- *; cbn [fst snd] in *; inversion Hr; subst.
  split; [reflexivity|]. split; [reflexivity|]. eauto.
Qed.

Lemma respond_named (email sid msg : str) (r : outcome processed * world)
    (email' sid' msg' : str) (out : option str) (code : N) :
  fst (respond email sid msg r)
  = Return (JsonSuccess email' sid' msg' out, code) ->
  exists err, fst r = Return (out, err) /\ truthy err = false /\ sid' = sid.
Proof.
  destruct r as [[[o e]|x] w]; cbn [respond]; [|discriminate].
  destruct (truthy e) eqn:Ht; [discriminate|].
  cbn [fst]. intros H. inversion H; subst. eauto.
Qed.

Lemma process_dot_code_output_cases (caps : capabilities) (d : str)
    (sf : Path) (w : world) (out err : option str) :
  fst (process_dot_code caps d sf w) = Return (out, err) ->
  truthy err = true
  \/ out = Some (lit "flowchart_" ++ stem sf ++ lit ".pdf").
Proof.
  intros Hr.
  destruct (process_dot_code_outcomes caps d sf w _ Hr)
    as [(w1 & Hr1 & _)|[(w1 & png & Hr1 & _)|(w1 & png & pdf & Hr1 & _)]];
    rewrite Hr1 in Hr; cbn [fst] in Hr; inversion Hr; subst;
    [left; reflexivity|left; reflexivity|right; reflexivity].
Qed.

Lemma process_named_or_failed (caps : capabilities) (prompt : str)
    (sf : Path) (is_new : bool) (w : world) (out err : option str) :
  fst (process_flowchart_request caps prompt sf is_new w) = Return (out, err) ->
  truthy err = true \/
  exists d w1, fst (process_dot_code caps d sf w1) = Return (out, err).
Proof.
  unfold process_flowchart_request, bind at 1.
  set (gen := if is_new then _ else _).
  destruct (gen w) as [[o|x] w1]; [|discriminate].
  destruct (truthy o); cbn [negb].
  - intros H. right. eauto.
  - cbn [ret fst]. intros H. inversion H. left. reflexivity.
Qed.

Lemma handle_create_request_fields (caps : capabilities) (uuid4 : str)
    (json : gmap str str) (w : world) :
  (exists email prompt,
     json !! lit "user_email" = Some email
     /\ json !! lit "prompt" = Some prompt)
  \/ exists msg, fst (handle_create_request caps uuid4 json w)
                 = Return (JsonError msg, 400).
Proof.
  unfold handle_create_request.
  destruct (json !! lit "user_email") as [e|];
    [destruct (json !! lit "prompt") as [p|]|]; eauto.
Qed.

Lemma handle_add_request_fields (caps : capabilities)
    (json : gmap str str) (w : world) :
  (exists email sid prompt,
     json !! lit "user_email" = Some email
     /\ json !! lit "session_id" = Some sid
     /\ json !! lit "prompt" = Some prompt)
  \/ exists msg, fst (handle_add_request caps json w)
                 = Return (JsonError msg, 400).
Proof.
  unfold handle_add_request.
  destruct (json !! lit "user_email") as [e|];
    [destruct (json !! lit "session_id") as [s|];
     [destruct (json !! lit "prompt") as [p|]|]|]; eauto 7.
Qed.

Lemma handle_load_template_request_fields (caps : capabilities)
    (uuid4 : str) (json : gmap str str) (w : world) :
  (exists email tid,
     json !! lit "user_email" = Some email
     /\ json !! lit "template_id" = Some tid)
  \/ exists msg, fst (handle_load_template_request caps uuid4 json w)
                 = Return (JsonError msg, 400).
Proof.
  unfold handle_load_template_request.
  destruct (json !! lit "user_email") as [e|];
    [destruct (json !! lit "template_id") as [t|]|]; eauto.
Qed.

Lemma session_stage_named (caps : capabilities) (d email sid : str)
    (w : world) (out err : option str) :
  fst (process_dot_code caps d (session_file_of email sid) w)
  = Return (out, err) ->
  truthy err = true \/ out = Some (artifact_name sid).
Proof.
  intros H. rewrite <- (session_artifact_name email sid).
  revert H. apply process_dot_code_output_cases.
Qed.

(** C6: the output document's name is [artifact_name] of the session id and
    of nothing else.  Every render stage that produces a name for a session
    id produces that one, whatever the user, the text, the services and the
    storage, and the file of that name in the output directory then holds
    the document the embedder made from the image of the text just
    processed.  A second successful stage for the same id yields the same
    name, replaces the content of that file by the document made from its
    own text, and leaves the set of stored files as it was, the session
    document it writes apart.  A successful answer of any of the three
    handlers carries that name for the session id it carries. *)
Theorem output_name_is_function_of_session_id (sid : str) :
  (forall (caps : capabilities) (d email : str) (w : world) (out : str)
          (err : option str),
     fst (process_dot_code caps d (session_file_of email sid) w)
     = Return (Some out, err) ->
     out = artifact_name sid
     /\ exists t png pdf,
          dot_exe caps d = Some png
          /\ fitz_insert_image caps t png = Some pdf
          /\ files (snd (process_dot_code caps d
                           (session_file_of email sid) w))
             !! resolve (OUTPUT_DIR // artifact_name sid) = Some pdf)
  /\ (forall (caps1 caps2 : capabilities) (d1 d2 email1 email2 : str)
             (w : world) (out1 out2 : str) (err1 err2 : option str),
        let w1 := snd (process_dot_code caps1 d1
                         (session_file_of email1 sid) w) in
        let w2 := snd (process_dot_code caps2 d2
                         (session_file_of email2 sid) w1) in
        fst (process_dot_code caps1 d1 (session_file_of email1 sid) w)
        = Return (Some out1, err1) ->
        fst (process_dot_code caps2 d2 (session_file_of email2 sid) w1)
        = Return (Some out2, err2) ->
        out2 = out1
        /\ (exists t1 png1 pdf1 t2 png2 pdf2,
              dot_exe caps1 d1 = Some png1
              /\ fitz_insert_image caps1 t1 png1 = Some pdf1
              /\ files w1 !! resolve (OUTPUT_DIR // out1) = Some pdf1
              /\ dot_exe caps2 d2 = Some png2
              /\ fitz_insert_image caps2 t2 png2 = Some pdf2
              /\ files w2 !! resolve (OUTPUT_DIR // out1) = Some pdf2)
        /\ forall k : list str,
             k <> resolve (session_file_of email2 sid) ->
             (is_Some (files w2 !! k) <-> is_Some (files w1 !! k)))
  /\ (forall (caps : capabilities) (uuid4 : str) (json : gmap str str)
             (w : world) (email msg : str) (out : option str) (code : N),
        (fst (handle_create_request caps uuid4 json w)
         = Return (JsonSuccess email sid msg out, code)
         \/ fst (handle_add_request caps json w)
            = Return (JsonSuccess email sid msg out, code)
         \/ fst (handle_load_template_request caps uuid4 json w)
            = Return (JsonSuccess email sid msg out, code)) ->
        out = Some (artifact_name sid)).
Proof.
  assert (forall (caps : capabilities) (d email : str) (w : world) (out : str)
                 (err : option str),
             fst (process_dot_code caps d (session_file_of email sid) w)
             = Return (Some out, err) ->
             out = artifact_name sid
             /\ exists t png pdf,
                  dot_exe caps d = Some png
                  /\ fitz_insert_image caps t png = Some pdf
                  /\ files (snd (process_dot_code caps d
                                   (session_file_of email sid) w))
                     !! resolve (OUTPUT_DIR // artifact_name sid) = Some pdf)
    as Hone.
  { intros caps d email w out err Hr.
    destruct (process_dot_code_named _ _ _ _ _ _ Hr) as (-> & _ & _).
    split; [apply session_artifact_name|].
    rewrite <- (session_artifact_name email sid).
    apply (process_dot_code_document caps d _ w _ err
             (session_name_no_sep email sid) Hr). }
  split; [exact Hone|]. split.
  2:{ intros caps uuid4 json w email msg out code [H|[H|H]].
      - destruct (handle_create_request_fields caps uuid4 json w)
          as [(e & p & He & Hp)|[m Hm]]; [|congruence].
        rewrite (handle_create_request_eq _ _ _ _ _ _ He Hp) in H.
        apply respond_named in H as (err & Hr & Ht & ->).
        apply process_named_or_failed in Hr as [Hr|(d & w1 & Hr)];
          [congruence|].
        apply session_stage_named in Hr as [Hr|Hr]; congruence.
      - destruct (handle_add_request_fields caps json w)
          as [(e & s & p & He & Hs & Hp)|[m Hm]]; [|congruence].
        rewrite (handle_add_request_eq _ _ _ _ _ _ He Hs Hp) in H.
        destruct (files w !! resolve (session_file_of e s)); [|discriminate H].
        apply respond_named in H as (err & Hr & Ht & ->).
        apply process_named_or_failed in Hr as [Hr|(d & w1 & Hr)];
          [congruence|].
        apply session_stage_named in Hr as [Hr|Hr]; congruence.
      - destruct (handle_load_template_request_fields caps uuid4 json w)
          as [(e & t & He & Ht')|[m Hm]]; [|congruence].
        rewrite (handle_load_template_request_eq _ _ _ _ _ _ He Ht') in H.
        destruct (files w !! resolve (TEMPLATE_DIR // (t ++ lit ".dot")));
          [|discriminate H].
        apply respond_named in H as (err & Hr & Ht & ->).
        apply session_stage_named in Hr as [Hr|Hr]; congruence. }
  intros caps1 caps2 d1 d2 email1 email2 w out1 out2 err1 err2 w1 w2 H1 H2.
  destruct (Hone _ _ _ _ _ _ H1) as (Ho1 & t1 & png1 & pdf1 & Hd1 & He1 & Hl1).
  destruct (Hone _ _ _ _ _ _ H2) as (Ho2 & t2 & png2 & pdf2 & Hd2 & He2 & Hl2).
  fold w1 in Hl1, Hl2. fold w2 in Hl2.
  split; [congruence|]. split.
  { exists t1, png1, pdf1, t2, png2, pdf2. rewrite Ho1. auto 7. }
  destruct (process_dot_code_named _ _ _ _ _ _ H1)
    as (_ & _ & png1' & pdf1' & Hf1).
  destruct (process_dot_code_named _ _ _ _ _ _ H2)
    as (_ & _ & png2' & pdf2' & Hf2).
  fold w1 in Hf1, Hf2. fold w2 in Hf2.
  assert (stem (session_file_of email2 sid)
          = stem (session_file_of email1 sid)) as Hst.
  { apply stem_of_name. rewrite !session_name. reflexivity. }
  assert (temp_png_path_of (session_file_of email2 sid)
          = temp_png_path_of (session_file_of email1 sid)) as Hpng.
  { unfold temp_png_path_of. rewrite Hst. reflexivity. }
  rewrite Hst, Hpng in Hf2.
  intros k Hk. rewrite Hf2.
  set (P := resolve (temp_png_path_of (session_file_of email1 sid))) in *.
  set (D := resolve (TEMP_DIR // (stem (temp_png_path_of
               (session_file_of email1 sid)) ++ lit ".dot"))) in *.
  set (O := resolve (OUTPUT_DIR // (lit "flowchart_"
               ++ stem (session_file_of email1 sid) ++ lit ".pdf"))) in *.
  destruct (decide (k = P)) as [->|HP].
  { rewrite lookup_delete_eq, Hf1, lookup_delete_eq. reflexivity. }
  rewrite lookup_delete_ne by congruence.
  destruct (decide (k = O)) as [->|HO].
  { rewrite lookup_insert_eq, Hf1, lookup_delete_ne, lookup_insert_eq
      by congruence. split; eauto. }
  rewrite lookup_insert_ne by congruence.
  destruct (decide (k = D)) as [->|HD].
  { rewrite lookup_delete_eq, Hf1, lookup_delete_ne, lookup_insert_ne,
      lookup_delete_eq by congruence. reflexivity. }
  rewrite lookup_delete_ne, !lookup_insert_ne by congruence. reflexivity.
Qed.

Lemma output_name_is_function_of_session_id_witness :
  let sf := session_file_of alice alice_session in
  let d1 := lit "digraph flowchart { A; }" in
  let d2 := lit "digraph flowchart { A; B; }" in
  let w1 := snd (process_dot_code working_caps d1 sf installed) in
  let w2 := snd (process_dot_code working_caps d2 sf w1) in
  files w1 !! resolve (OUTPUT_DIR // artifact_name alice_session)
  = Some (lit "PDF:PNG:digraph flowchart { A; }")
  /\ files w2 !! resolve (OUTPUT_DIR // artifact_name alice_session)
     = Some (lit "PDF:PNG:digraph flowchart { A; B; }")
  /\ (artifact_name alice_session = artifact_name alice_session
      /\ (exists t1 png1 pdf1 t2 png2 pdf2,
            dot_exe working_caps d1 = Some png1
            /\ fitz_insert_image working_caps t1 png1 = Some pdf1
            /\ files w1 !! resolve (OUTPUT_DIR // artifact_name alice_session)
               = Some pdf1
            /\ dot_exe working_caps d2 = Some png2
            /\ fitz_insert_image working_caps t2 png2 = Some pdf2
            /\ files w2 !! resolve (OUTPUT_DIR // artifact_name alice_session)
               = Some pdf2)
      /\ forall k : list str,
           k <> resolve sf ->
           (is_Some (files w2 !! k) <-> is_Some (files w1 !! k)))
  /\ Some (artifact_name alice_session) = Some (artifact_name alice_session).
Proof.
  intros sf d1 d2 w1 w2.
  destruct (output_name_is_function_of_session_id alice_session)
    as (_ & Htwo & Hhandlers).
  split; [vm_compute; reflexivity|]. split; [vm_compute; reflexivity|].
  split.
  - apply (Htwo working_caps working_caps d1 d2 alice alice installed
             (artifact_name alice_session) (artifact_name alice_session)
             None None); vm_compute; reflexivity.
  - apply (Hhandlers working_caps fresh_uuid
             (json_of [("user_email", "alice@example.com");
                       ("session_id", "7d1f3c1e-58a4-4e0b-9a57-0c2f6c0e11aa");
                       ("prompt", "Add step B after A")]%string)
             installed alice (lit "Flowchart PDF updated.")
             (Some (artifact_name alice_session)) 200).
    right; left. vm_compute. reflexivity.
Defined.

(** ** Template loading *)

Lemma load_template_missing_file (caps : capabilities) (uuid4 : str)
    (json : gmap str str) (email tid : str) (w : world) :
  json !! lit "user_email" = Some email ->
  json !! lit "template_id" = Some tid ->
  fst (is_file (TEMPLATE_DIR // (tid ++ lit ".dot")) w) = Return false ->
  handle_load_template_request caps uuid4 json w
  = (Return (JsonError (lit "Template '" ++ tid ++ lit "' not found."), 404),
     w).
Proof.
  intros He Ht Hx.
  rewrite (handle_load_template_request_eq caps uuid4 json email tid w He Ht).
  unfold is_file, path_exists in Hx. cbn [fst] in Hx.
  destruct (files w !! resolve (TEMPLATE_DIR // (tid ++ lit ".dot")));
    [|reflexivity].
  rewrite bool_decide_eq_true_2 in Hx by eauto. discriminate Hx.
Qed.

(** C1 fails on the code: [handle_load_template_request] builds the path of
    the template from the id and only asks whether a file is there.  In an
    installation whose catalog is the single template [simple_process], the id
    ["../session_files/alice_example_com/7d1f3c1e-..."] is not in the catalog,
    yet the request succeeds and a new session of the requesting user holds
    the document of Alice's session. *)
Theorem load_template_reads_outside_catalog :
  let tid := lit "../session_files/alice_example_com/7d1f3c1e-58a4-4e0b-9a57-0c2f6c0e11aa" in
  let mallory := lit "mallory@example.com" in
  let r := handle_load_template_request working_caps fresh_uuid
             (json_of [("user_email", "mallory@example.com");
                       ("template_id", "../session_files/alice_example_com/7d1f3c1e-58a4-4e0b-9a57-0c2f6c0e11aa")]%string)
             installed in
  fst (list_templates_ids installed) = Return [lit "simple_process"]
  /\ tid <> lit "simple_process"
  /\ fst r = Return (JsonSuccess mallory fresh_uuid
                       (lit "Template '" ++ tid ++ lit "' loaded successfully.")
                       (Some (artifact_name fresh_uuid)), 200)
  /\ fst (read_text (session_file_of mallory fresh_uuid) (snd r))
     = Return (lit "digraph flowchart { Secret; }")
  /\ fst (read_text (session_file_of alice alice_session) installed)
     = Return (lit "digraph flowchart { Secret; }").
Proof.
  cbv zeta. split; [vm_compute; reflexivity|].
  split; [intros E; vm_compute in E; discriminate E|].
  split; [vm_compute; reflexivity|].
  split; vm_compute; reflexivity.
Qed.

(** ** Cleanup of the temporary image *)

Lemma success_removes_temp_image (caps : capabilities) (d : str) (sf : Path)
    (w : world) (out : str) (err : option str) :
  fst (process_dot_code caps d sf w) = Return (Some out, err) ->
  fst (path_exists (temp_png_path_of sf) (snd (process_dot_code caps d sf w)))
  = Return false.
Proof.
  intros Hr.
  destruct (process_dot_code_named _ _ _ _ _ _ Hr) as (_ & _ & png & pdf & Hf).
  unfold path_exists. cbn [fst]. rewrite Hf, lookup_delete_eq.
  rewrite bool_decide_eq_false_2; [reflexivity|].
  intros [x Hx]. discriminate Hx.
Qed.


(** C2 fails on the code: [process_dot_code] returns as soon as the embedding
    fails, before the [unlink] of the temporary image.  With [Template.pdf]
    missing, Graphviz produces the image, the stage answers "Failed to embed
    image in PDF." and the image is still in the temporary directory. *)
Theorem embed_failure_leaves_temp_image :
  let sf := session_file_of alice alice_session in
  let r := process_dot_code working_caps (lit "digraph flowchart { A; B; }")
             sf installed_without_pdf_template in
  fst r = Return (None, Some (lit "Failed to embed image in PDF."))
  /\ dot_exe working_caps (lit "digraph flowchart { A; B; }")
     = Some (lit "PNG:digraph flowchart { A; B; }")
  /\ fst (path_exists (temp_png_path_of sf) (snd r)) = Return true
  /\ fst (read_text (temp_png_path_of sf) (snd r))
     = Return (lit "PNG:digraph flowchart { A; B; }").
Proof.
  cbv zeta. repeat split; vm_compute; reflexivity.
Qed.

(** ** Further properties of the render stage *)

(** X1: when [convert_dot_to_png] returns, it answers whether Graphviz drew
    an image ([False] when the executable is missing or exits with an
    error), it has called Graphviz exactly once, on the text it was given,
    and its temporary DOT file is gone.  When it raises the exception the
    start of Graphviz raised (one the function does not catch), the
    [finally] clause has removed the DOT file all the same.  When it raises
    [UnicodeEncodeError] on text that cannot be encoded, the exception comes
    from [write_text], which is before the [try]: Graphviz was not called
    and the DOT file is left behind, empty. *)
Theorem convert_cleans_its_dot_file (caps : capabilities) (d : str)
    (out : Path) (w : world) :
  let r := convert_dot_to_png caps d out w in
  let dot_file := TEMP_DIR // (stem out ++ lit ".dot") in
  (forall b : bool,
     fst r = Return b ->
     b = bool_decide (is_Some (graphviz_image caps d))
     /\ calls (snd r) = calls w ++ [CallDot d]
     /\ fst (path_exists dot_file (snd r)) = Return false)
  /\ (forall e : exn,
        fst r = Raise e ->
        subprocess_raises caps d = Some e ->
        encodable d = true ->
        calls (snd r) = calls w ++ [CallDot d]
        /\ fst (path_exists dot_file (snd r)) = Return false)
  /\ (forall t : str,
        fst r = Raise (UnicodeEncodeError t) ->
        encodable d = false ->
        t = d
        /\ calls (snd r) = calls w
        /\ files (snd r) !! resolve dot_file = Some []).
Proof.
  cbv zeta. rewrite convert_dot_to_png_eq. cbv zeta.
  unfold path_exists, graphviz_image. split; [|split].
  - intros b.
    destruct (encodable d); [|discriminate].
    destruct (subprocess_raises caps d) as [e|].
    + cbn [fst snd files calls]. rewrite lookup_delete_eq.
      destruct e; try discriminate.
      intros Hr; injection Hr as <-; repeat split.
    + destruct (dot_exe caps d) as [png|]; cbn [fst snd files calls];
        rewrite lookup_delete_eq; intros Hr; injection Hr as <-;
        repeat split.
  - intros e _ -> ->. cbn [fst snd files calls]. rewrite lookup_delete_eq.
    split; reflexivity.
  - intros t Hr He. rewrite He in Hr |- *. cbn [fst snd files calls] in Hr |- *.
    injection Hr as <-. rewrite lookup_insert_eq. repeat split.
Qed.

Lemma convert_cleans_its_dot_file_witness :
  let out := temp_png_path_of (session_file_of alice alice_session) in
  let dot_file := TEMP_DIR // (stem out ++ lit ".dot") in
  let d := lit "digraph flowchart { A; }" in
  let r0 := convert_dot_to_png dot_missing_caps d out installed in
  let r := convert_dot_to_png dot_forbidden_caps d out installed in
  let r' := convert_dot_to_png working_caps [55296] out installed in
  fst r0 = Return false
  /\ (false = bool_decide (is_Some (graphviz_image dot_missing_caps d))
      /\ calls (snd r0) = calls installed ++ [CallDot d]
      /\ fst (path_exists dot_file (snd r0)) = Return false)
  /\ fst r = Raise (PermissionError DOT_PATH)
  /\ (calls (snd r) = calls installed ++ [CallDot d]
      /\ fst (path_exists dot_file (snd r)) = Return false)
  /\ fst r' = Raise (UnicodeEncodeError [55296])
  /\ ([55296] = [55296]
      /\ calls (snd r') = calls installed
      /\ files (snd r') !! resolve dot_file = Some []).
Proof.
  intros out dot_file d r0 r r'.
  split; [vm_compute; reflexivity|]. split.
  { destruct (convert_cleans_its_dot_file dot_missing_caps d out installed)
      as (Hret & _ & _).
    apply (Hret false). vm_compute. reflexivity. }
  split; [vm_compute; reflexivity|]. split.
  { destruct (convert_cleans_its_dot_file dot_forbidden_caps d out installed)
      as (_ & Hrun & _).
    apply (Hrun (PermissionError DOT_PATH)); vm_compute; reflexivity. }
  split; [vm_compute; reflexivity|].
  destruct (convert_cleans_its_dot_file working_caps [55296] out installed)
    as (_ & _ & Hwrite).
  apply (Hwrite [55296]); vm_compute; reflexivity.
Defined.

(** X2: when the PDF template is missing, [embed_image_in_pdf] answers
    [False] at once: PyMuPDF is not called and nothing is written. *)
Theorem embed_without_template (caps : capabilities) (tpl : str)
    (img out : Path) (w : world) :
  fst (path_exists (PurePath tpl) w) = Return false ->
  embed_image_in_pdf caps tpl img out w = (Return false, w).
Proof.
  intros H. rewrite embed_image_in_pdf_eq.
  unfold path_exists in H. cbn [fst] in H.
  destruct (files w !! resolve (PurePath tpl)) as [t|]; [|reflexivity].
  rewrite bool_decide_eq_true_2 in H by eauto. discriminate H.
Qed.

Lemma embed_without_template_witness :
  embed_image_in_pdf working_caps PDF_TEMPLATE_PATH
    (temp_png_path_of (session_file_of alice alice_session))
    (OUTPUT_DIR // artifact_name alice_session)
    installed_without_pdf_template
  = (Return false, installed_without_pdf_template).
Proof.
  apply embed_without_template. vm_compute. reflexivity.
Defined.

(** X3: [embed_image_in_pdf] never raises and only ever writes the output
    document: every other file, the template included, is as before, and
    when it answers [False] the output document is as before too. *)
Theorem embed_writes_only_the_output (caps : capabilities) (tpl : str)
    (img out : Path) (w : world) :
  let r := embed_image_in_pdf caps tpl img out w in
  (exists b, fst r = Return b
             /\ (b = false -> files (snd r) = files w))
  /\ forall p : list str,
       p <> resolve out -> files (snd r) !! p = files w !! p.
Proof.
  cbv zeta. rewrite embed_image_in_pdf_eq.
  destruct (files w !! resolve (PurePath tpl)) as [t|];
    [destruct (files w !! resolve img) as [i|];
     [destruct (fitz_insert_image caps t i) as [pdf|]|]|];
    cbn [fst snd files]; split; eauto;
    try (eexists; split; [reflexivity|]; intros; congruence).
  intros p Hp. rewrite lookup_insert_ne by congruence. reflexivity.
Qed.

(** The calls a render stage adds to the log. *)
Lemma process_dot_code_call_log (caps : capabilities) (d : str) (sf : Path)
    (w : world) :
  calls (snd (process_dot_code caps d sf w)) = calls w
  \/ calls (snd (process_dot_code caps d sf w)) = calls w ++ [CallDot d]
  \/ exists t i,
       calls (snd (process_dot_code caps d sf w))
       = calls w ++ [CallDot d; CallFitz t i].
Proof.
  rewrite process_dot_code_eq. cbv zeta.
  destruct (encodable d); [|left; reflexivity].
  right.
  destruct (subprocess_raises caps d); [left; reflexivity|].
  destruct (dot_exe caps d) as [png|]; [|left; reflexivity].
  destruct (_ !! resolve (PurePath PDF_TEMPLATE_PATH)) as [t|];
    [|left; reflexivity].
  destruct (_ !! resolve (temp_png_path_of sf)) as [i|]; [|left; reflexivity].
  right. exists t, i.
  destruct (fitz_insert_image caps t i); cbn [snd calls];
    rewrite <- app_assoc; reflexivity.
Qed.

(** X4: what [process_dot_code] returns, when it returns.  The result is the
    output name with no error, and then Graphviz drew an image and PyMuPDF
    was called once after it; or no name with "Failed to convert flowchart
    to an image.", and then Graphviz drew none and PyMuPDF was not called; or
    no name with "Failed to embed image in PDF.", and then Graphviz drew an
    image and PyMuPDF was called at most once.  In each case Graphviz was
    called exactly once, on the text given, which could be encoded. *)
Theorem render_stage_results (caps : capabilities) (d : str) (sf : Path)
    (w : world) (r : processed) :
  fst (process_dot_code caps d sf w) = Return r ->
  let w' := snd (process_dot_code caps d sf w) in
  encodable d = true
  /\ ((r = (Some (lit "flowchart_" ++ stem sf ++ lit ".pdf"), None)
       /\ is_Some (graphviz_image caps d)
       /\ exists t i, calls w' = calls w ++ [CallDot d; CallFitz t i])
      \/ (r = (None, Some (lit "Failed to convert flowchart to an image."))
          /\ graphviz_image caps d = None
          /\ calls w' = calls w ++ [CallDot d])
      \/ (r = (None, Some (lit "Failed to embed image in PDF."))
          /\ is_Some (graphviz_image caps d)
          /\ (calls w' = calls w ++ [CallDot d]
              \/ exists t i, calls w' = calls w ++ [CallDot d; CallFitz t i]))).
Proof.
  intros Hr. cbv zeta. unfold graphviz_image.
  rewrite process_dot_code_eq in Hr |- *. cbv zeta in Hr |- *.
  destruct (encodable d); [|discriminate Hr].
  split; [reflexivity|]. revert Hr.
  destruct (subprocess_raises caps d) as [e|].
  { cbn [fst snd calls]. destruct e; try discriminate.
    intros Hr; injection Hr as <-. right; left. repeat split. }
  destruct (dot_exe caps d) as [png|].
  - destruct (_ !! resolve (PurePath PDF_TEMPLATE_PATH)) as [t|].
    + destruct (_ !! resolve (temp_png_path_of sf)) as [i|].
      * destruct (fitz_insert_image caps t i) as [pdf|];
          cbn [fst snd calls]; intros Hr; injection Hr as <-;
          rewrite <- app_assoc; cbn [app]; [left|right; right];
          (split; [reflexivity|]); (split; [eauto|]); eauto.
      * cbn [fst snd calls]. intros Hr; injection Hr as <-.
        right; right. split; [reflexivity|]. split; [eauto|]. left. reflexivity.
    + cbn [fst snd calls]. intros Hr; injection Hr as <-.
      right; right. split; [reflexivity|]. split; [eauto|]. left. reflexivity.
  - cbn [fst snd calls]. intros Hr; injection Hr as <-.
    right; left. repeat split.
Qed.

Lemma render_stage_results_witness :
  let d := lit "digraph flowchart { A; B; }" in
  let sf := session_file_of alice alice_session in
  let r := (None, Some (lit "Failed to embed image in PDF.")) in
  let w' := snd (process_dot_code working_caps d sf
                   installed_without_pdf_template) in
  encodable d = true
  /\ ((r = (Some (lit "flowchart_" ++ stem sf ++ lit ".pdf"), None)
       /\ is_Some (graphviz_image working_caps d)
       /\ exists t i,
            calls w'
            = calls installed_without_pdf_template
              ++ [CallDot d; CallFitz t i])
      \/ (r = (None, Some (lit "Failed to convert flowchart to an image."))
          /\ graphviz_image working_caps d = None
          /\ calls w' = calls installed_without_pdf_template ++ [CallDot d])
      \/ (r = (None, Some (lit "Failed to embed image in PDF."))
          /\ is_Some (graphviz_image working_caps d)
          /\ (calls w' = calls installed_without_pdf_template ++ [CallDot d]
              \/ exists t i,
                   calls w'
                   = calls installed_without_pdf_template
                     ++ [CallDot d; CallFitz t i]))).
Proof.
  apply (render_stage_results working_caps
           (lit "digraph flowchart { A; B; }")
           (session_file_of alice alice_session)
           installed_without_pdf_template
           (None, Some (lit "Failed to embed image in PDF."))).
  vm_compute. reflexivity.
Defined.

(** X5: after a successful render stage neither the temporary image nor the
    temporary DOT file is left in the temporary directory. *)
Theorem success_leaves_no_temp_file (caps : capabilities) (d : str)
    (sf : Path) (w : world) (out : str) (err : option str) :
  no_sep (name sf) = true ->
  fst (process_dot_code caps d sf w) = Return (Some out, err) ->
  let w' := snd (process_dot_code caps d sf w) in
  fst (path_exists (temp_png_path_of sf) w') = Return false
  /\ fst (path_exists
            (TEMP_DIR // (stem (temp_png_path_of sf) ++ lit ".dot")) w')
     = Return false.
Proof.
  intros Hn Hr w'. split; [exact (success_removes_temp_image _ _ _ _ _ _ Hr)|].
  destruct (process_dot_code_named _ _ _ _ _ _ Hr) as (_ & _ & png & pdf & Hf).
  destruct (render_keys_distinct sf Hn) as (HPD & _ & HOD).
  unfold path_exists. cbn [fst]. subst w'. rewrite Hf.
  rewrite lookup_delete_ne, lookup_insert_ne, lookup_delete_eq by congruence.
  rewrite bool_decide_eq_false_2; [reflexivity|].
  intros [x Hx]. discriminate Hx.
Qed.

Lemma success_leaves_no_temp_file_witness :
  let sf := session_file_of alice alice_session in
  let w' := snd (process_dot_code working_caps
                   (lit "digraph flowchart { A; B; }") sf installed) in
  fst (path_exists (temp_png_path_of sf) w') = Return false
  /\ fst (path_exists
            (TEMP_DIR // (stem (temp_png_path_of sf) ++ lit ".dot")) w')
     = Return false.
Proof.
  apply (success_leaves_no_temp_file working_caps
           (lit "digraph flowchart { A; B; }")
           (session_file_of alice alice_session) installed
           (artifact_name alice_session) None);
    vm_compute; reflexivity.
Defined.

(** ** What the render stage leaves in the storage *)

Lemma stage_keeps_text (caps : capabilities) (d : str) (sf : Path)
    (w : world) (r : processed) :
  resolve sf <> resolve (temp_png_path_of sf) ->
  resolve sf
  <> resolve (TEMP_DIR // (stem (temp_png_path_of sf) ++ lit ".dot")) ->
  resolve sf
  <> resolve (OUTPUT_DIR // (lit "flowchart_" ++ stem sf ++ lit ".pdf")) ->
  fst (process_dot_code caps d sf w) = Return r ->
  files (snd (process_dot_code caps d sf w)) !! resolve sf = Some d.
Proof.
  intros HP HD HO Hr.
  destruct (process_dot_code_outcomes caps d sf w r Hr)
    as [(w' & -> & _ & Hf & _)|[(w' & png & -> & _ & Hf & _)
       |(w' & png & pdf & -> & _ & Hf & _)]]; cbn [snd]; rewrite Hf.
  - rewrite lookup_delete_ne, lookup_insert_ne by congruence.
    apply lookup_insert_eq.
  - rewrite lookup_delete_ne, !lookup_insert_ne by congruence.
    apply lookup_insert_eq.
  - rewrite lookup_delete_ne, lookup_insert_ne, lookup_delete_ne,
      !lookup_insert_ne by congruence.
    apply lookup_insert_eq.
Qed.

Lemma stage_frame (caps : capabilities) (d : str) (sf : Path) (w : world)
    (k : list str) :
  k <> resolve sf ->
  k <> resolve (temp_png_path_of sf) ->
  k <> resolve (TEMP_DIR // (stem (temp_png_path_of sf) ++ lit ".dot")) ->
  k <> resolve (OUTPUT_DIR // (lit "flowchart_" ++ stem sf ++ lit ".pdf")) ->
  files (snd (process_dot_code caps d sf w)) !! k = files w !! k.
Proof.
  intros HS HP HD HO.
  destruct (fst (process_dot_code caps d sf w)) as [r|e] eqn:E.
  - destruct (process_dot_code_outcomes caps d sf w r E)
      as [(w' & -> & _ & Hf & _)|[(w' & png & -> & _ & Hf & _)
         |(w' & png & pdf & -> & _ & Hf & _)]]; cbn [snd]; rewrite Hf.
    + rewrite lookup_delete_ne, !lookup_insert_ne by congruence. reflexivity.
    + rewrite lookup_delete_ne, !lookup_insert_ne by congruence. reflexivity.
    + rewrite lookup_delete_ne, lookup_insert_ne, lookup_delete_ne,
        !lookup_insert_ne by congruence. reflexivity.
  - destruct (process_dot_code_raises caps d sf w e E)
      as [(_ & _ & ->)|(_ & _ & ->)]; cbn [files].
    + rewrite lookup_insert_ne by congruence. reflexivity.
    + rewrite lookup_delete_ne, !lookup_insert_ne by congruence. reflexivity.
Qed.

(** X6: whenever the render stage returns (with success, with the Graphviz
    failure or with the embedding failure), the session document of a
    separator-free session id holds the text the stage was given, character
    for character, and reads back as that text under universal newlines.
    When the text cannot be encoded and the stage raises
    [UnicodeEncodeError] instead, the session document is left empty. *)
Theorem stage_persists_in_every_outcome (caps : capabilities)
    (d email sid : str) (w : world) :
  no_sep sid = true ->
  let sf := session_file_of email sid in
  let w' := snd (process_dot_code caps d sf w) in
  (forall r : processed,
     fst (process_dot_code caps d sf w) = Return r ->
     files w' !! resolve sf = Some d
     /\ fst (read_text sf w') = Return (universal_newlines d))
  /\ (forall t : str,
        fst (process_dot_code caps d sf w) = Raise (UnicodeEncodeError t) ->
        encodable d = false ->
        t = d /\ calls w' = calls w /\ files w' !! resolve sf = Some []).
Proof.
  intros H sf w'. subst sf w'.
  destruct (session_key_apart email sid H) as (HP & HD & HO). split.
  - intros r Hr.
    pose proof (stage_keeps_text caps d _ w r HP HD HO Hr) as Hl.
    split; [exact Hl|]. rewrite (read_text_stored _ _ _ Hl). reflexivity.
  - intros t Hr Hd.
    destruct (process_dot_code_raises caps d _ w _ Hr)
      as [(_ & Ht & ->)|(He & _)]; [|congruence].
    cbn [files calls]. injection Ht as ->. rewrite lookup_insert_eq. auto.
Qed.

Lemma stage_persists_in_every_outcome_witness :
  let sf := session_file_of alice alice_session in
  let w' := snd (process_dot_code working_caps crlf_text sf
                   installed_without_pdf_template) in
  let w'' := snd (process_dot_code working_caps [55296] sf installed) in
  (files w' !! resolve sf = Some crlf_text
   /\ fst (read_text sf w') = Return (universal_newlines crlf_text))
  /\ fst (process_dot_code working_caps [55296] sf installed)
     = Raise (UnicodeEncodeError [55296])
  /\ ([55296] = [55296]
      /\ calls w'' = calls installed
      /\ files w'' !! resolve sf = Some []).
Proof.
  intros sf w' w''. split.
  - destruct (stage_persists_in_every_outcome working_caps crlf_text alice
                alice_session installed_without_pdf_template) as [Hret _];
      [vm_compute; reflexivity|].
    apply (Hret (None, Some (lit "Failed to embed image in PDF."))).
    vm_compute. reflexivity.
  - split; [vm_compute; reflexivity|].
    destruct (stage_persists_in_every_outcome working_caps [55296] alice
                alice_session installed) as [_ Hraise];
      [vm_compute; reflexivity|].
    apply (Hraise [55296]); vm_compute; reflexivity.
Defined.

Lemma dot_suffix_inj (a b : str) : a ++ lit ".dot" = b ++ lit ".dot" -> a = b.
Proof. apply app_inv_tail. Qed.

(** Separator-free session ids of different folders or with different ids
    are stored under different keys. *)
Lemma session_key_inj (email1 sid1 email2 sid2 : str) :
  no_sep sid1 = true -> no_sep sid2 = true ->
  resolve (session_file_of email1 sid1) = resolve (session_file_of email2 sid2) ->
  sanitize_email_for_folder email1 = sanitize_email_for_folder email2
  /\ sid1 = sid2.
Proof.
  intros H1 H2. rewrite (session_key email1 sid1 H1), (session_key email2 sid2 H2).
  destruct (str_eqb (sanitize_email_for_folder email1) []) eqn:E1;
    destruct (str_eqb (sanitize_email_for_folder email2) []) eqn:E2;
    intros E; cbn [app] in E.
  - injection E as E. apply str_eqb_eq in E1, E2. rewrite E1, E2.
    split; [reflexivity|]. apply dot_suffix_inj, E.
  - discriminate E.
  - discriminate E.
  - injection E as Ef Es. split; [exact Ef|]. apply dot_suffix_inj, Es.
Qed.

Lemma process_flowchart_request_world (caps : capabilities) (prompt : str)
    (sf : Path) (is_new : bool) (w : world) :
  files (snd (process_flowchart_request caps prompt sf is_new w)) = files w
  \/ exists d w1,
       files w1 = files w
       /\ snd (process_flowchart_request caps prompt sf is_new w)
          = snd (process_dot_code caps d sf w1).
Proof.
  destruct is_new.
  - rewrite process_new_eq. cbv zeta.
    destruct (truthy _); [right|left; reflexivity]. eexists _, _.
    split; [|reflexivity]. reflexivity.
  - destruct (files w !! resolve sf) as [c|] eqn:E.
    + assert (fst (read_text sf w) = Return (universal_newlines c)) as Hread
        by (rewrite (read_text_stored _ _ _ E); reflexivity).
      rewrite (process_existing_eq caps prompt _ sf w Hread). cbv zeta.
      destruct (truthy _); [right|left; reflexivity]. eexists _, _.
      split; [|reflexivity]. reflexivity.
    + left. unfold process_flowchart_request, bind at 1.
      unfold bind at 1, read_text. rewrite E. reflexivity.
Qed.

(** X7: sessions do not interfere.  Processing one session (a render stage,
    or a whole create or append pipeline) leaves the stored document of every
    other session as it was, when both session ids are separator-free and
    the two sessions differ in the user folder or in the id. *)
Theorem other_sessions_untouched (caps : capabilities)
    (prompt d email1 sid1 email2 sid2 : str) (is_new : bool) (w : world) :
  no_sep sid1 = true ->
  no_sep sid2 = true ->
  (sanitize_email_for_folder email1 <> sanitize_email_for_folder email2
   \/ sid1 <> sid2) ->
  let k := resolve (session_file_of email2 sid2) in
  files (snd (process_dot_code caps d (session_file_of email1 sid1) w)) !! k
  = files w !! k
  /\ files (snd (process_flowchart_request caps prompt
                   (session_file_of email1 sid1) is_new w)) !! k
     = files w !! k.
Proof.
  intros H1 H2 Hne k.
  assert (forall d' w', files (snd (process_dot_code caps d'
                                      (session_file_of email1 sid1) w')) !! k
                        = files w' !! k) as Hstage.
  { intros d' w'. subst k.
    pose proof (session_name_no_sep email1 sid1) as Hn.
    apply stage_frame.
    - intros E. apply session_key_inj in E as [Ef Es]; [|assumption..].
      destruct Hne; congruence.
    - rewrite (temp_png_key _ Hn), (session_key email2 sid2 H2).
      intros E. injection E as E _. vm_compute in E. discriminate E.
    - rewrite (temp_dot_key _ Hn), (session_key email2 sid2 H2).
      intros E. injection E as E _. vm_compute in E. discriminate E.
    - rewrite (output_pdf_key _ Hn), (session_key email2 sid2 H2).
      intros E. injection E as E _. vm_compute in E. discriminate E. }
  split; [apply Hstage|].
  destruct (process_flowchart_request_world caps prompt
              (session_file_of email1 sid1) is_new w)
    as [Hf|(d' & w1 & Hf & ->)].
  - rewrite Hf. reflexivity.
  - rewrite Hstage, Hf. reflexivity.
Qed.

Lemma other_sessions_untouched_witness :
  let k := resolve (session_file_of alice alice_session) in
  files (snd (process_dot_code working_caps (lit "digraph flowchart { X; }")
                (session_file_of (lit "bob@example.com") fresh_uuid)
                installed)) !! k
  = files installed !! k
  /\ files (snd (process_flowchart_request working_caps
                   (lit "Start with step A")
                   (session_file_of (lit "bob@example.com") fresh_uuid)
                   true installed)) !! k
     = files installed !! k.
Proof.
  apply (other_sessions_untouched working_caps (lit "Start with step A")
           (lit "digraph flowchart { X; }") (lit "bob@example.com") fresh_uuid
           alice alice_session true installed);
    [vm_compute; reflexivity..|].
  left. intros E. vm_compute in E. discriminate E.
Defined.

(** ** Session ids that contain separators *)

Lemma split_on_no_sep_cons (a b : str) :
  no_sep a = true -> split_on 47 (a ++ 47 :: b) = a :: split_on 47 b.
Proof.
  induction a as [|c a IH]; intros H; [reflexivity|].
  simpl in *. apply andb_true_iff in H as [Hc Ha].
  apply negb_true_iff in Hc. rewrite Hc, (IH Ha). reflexivity.
Qed.

Lemma resolve_pop (x y : str) (rest : Path) :
  x <> lit ".." -> y <> lit ".." -> y <> lit "/" ->
  resolve (x :: y :: lit ".." :: rest) = resolve (x :: rest).
Proof.
  intros Hx Hy Hy'. unfold resolve. cbn [resolve_onto].
  rewrite ?(str_eqb_neq _ _ Hx), ?(str_eqb_neq _ _ Hy),
    ?(str_eqb_neq _ _ Hy').
  change (str_eqb (lit "..") (lit "..")) with true. reflexivity.
Qed.

(** The session id [../<folder of b>/<sid>] presented under the name of a
    user [a] with a non-empty folder denotes the session document of [b]. *)
Lemma crafted_session_path (email_a email_b sid : str) :
  sanitize_email_for_folder email_a <> [] ->
  no_sep sid = true ->
  resolve (session_file_of email_a
             (lit "../" ++ sanitize_email_for_folder email_b ++ lit "/" ++ sid))
  = resolve (session_file_of email_b sid).
Proof.
  intros Ha Hs.
  pose proof (sanitize_forall email_a) as Hfa.
  pose proof (sanitize_forall email_b) as Hfb.
  set (fa := sanitize_email_for_folder email_a) in *.
  set (fb := sanitize_email_for_folder email_b) in *.
  assert (no_sep (sid ++ lit ".dot") = true) as Hsd
    by (rewrite no_sep_app, Hs; reflexivity).
  assert ((2 <= length (sid ++ lit ".dot"))%nat) as Hl
    by (rewrite length_app; simpl; lia).
  unfold session_file_of. fold fa fb.
  rewrite !(join_folder _ _ Hfa), !(join_folder _ _ Hfb), SESSION_DIR_parts.
  rewrite (str_eqb_neq fa [] Ha).
  rewrite (join_plain _ (sid ++ lit ".dot") Hsd Hl).
  assert ((lit "../" ++ fb ++ lit "/" ++ sid) ++ lit ".dot"
          = lit ".." ++ 47 :: (fb ++ 47 :: (sid ++ lit ".dot"))) as ->.
  { change (lit "../") with (lit ".." ++ [47]).
    change (lit "/") with [47]. rewrite <- !app_assoc. reflexivity. }
  unfold joinpath at 1. change (is_absolute _) with false. cbv iota.
  unfold parse_parts.
  rewrite (split_on_no_sep_cons (lit "..")) by reflexivity.
  rewrite (split_on_no_sep_cons fb) by apply folder_char_no_sep, Hfb.
  rewrite (split_on_no_sep (sid ++ lit ".dot") Hsd).
  cbn [List.filter].
  rewrite (long_not_empty_nor_dot _ Hl).
  change (negb (str_eqb (lit "..") []) && negb (str_eqb (lit "..") (lit ".")))
    with true. cbv iota.
  destruct (str_eqb fb []) eqn:Eb; cbn [negb andb app].
  - apply resolve_pop; [discriminate|apply folder_char_not_dots, Hfa|].
    intros E. rewrite E in Hfa. inversion Hfa as [|? ? Hc _]. discriminate Hc.
  - rewrite (str_eqb_neq fb (lit "."))
      by apply folder_char_not_dots, Hfb.
    cbn [negb]. apply resolve_pop;
      [discriminate|apply folder_char_not_dots, Hfa|].
    intros E. rewrite E in Hfa. inversion Hfa as [|? ? Hc _]. discriminate Hc.
Qed.

(** X8: the append handler does not confine a session id to the namespace of
    the user who presents it.  Let user [a] own a stored session, so that
    the folder of [a] exists and has a name, and let [b] be any user and
    [sid] any separator-free id.  When an append sent as [a] with the
    session id [../<folder of b>/<sid>] is answered with success, then [b]
    has a document stored under [sid], that document as read back is what
    was sent to the model, and the model's output is now the document
    stored for [b] under [sid]. *)
Theorem append_reaches_other_namespace (caps : capabilities)
    (json : gmap str str) (email_a sid_a doc_a email_b sid prompt : str)
    (w : world) (email' sid' msg : str) (out : option str) :
  json !! lit "user_email" = Some email_a ->
  json !! lit "session_id"
  = Some (lit "../" ++ sanitize_email_for_folder email_b ++ lit "/" ++ sid) ->
  json !! lit "prompt" = Some prompt ->
  sanitize_email_for_folder email_a <> [] ->
  no_sep sid_a = true ->
  files w !! resolve (session_file_of email_a sid_a) = Some doc_a ->
  no_sep sid = true ->
  fst (handle_add_request caps json w)
  = Return (JsonSuccess email' sid' msg out, 200) ->
  let w' := snd (handle_add_request caps json w) in
  exists raw d,
    files w !! resolve (session_file_of email_b sid) = Some raw
    /\ fst (modify_dot_code caps (universal_newlines raw) prompt w)
       = Return (Some d)
    /\ files w' !! resolve (session_file_of email_b sid) = Some d
    /\ exists rest,
         calls w'
         = calls w
           ++ CallModel (ModifyPrompt (universal_newlines raw) prompt) :: rest.
Proof.
  intros He Hs Hp Ha _ _ Hsid Hans w'. subst w'.
  pose proof (crafted_session_path email_a email_b sid Ha Hsid) as Hkey.
  set (crafted := lit "../" ++ sanitize_email_for_folder email_b
                  ++ lit "/" ++ sid) in *.
  rewrite (handle_add_request_eq caps json email_a crafted prompt w He Hs Hp)
    in Hans |- *.
  destruct (files w !! resolve (session_file_of email_a crafted))
    as [raw|] eqn:E; [|discriminate Hans].
  assert (fst (read_text (session_file_of email_a crafted) w)
          = Return (universal_newlines raw)) as Hread
    by (rewrite (read_text_stored _ _ _ E); reflexivity).
  rewrite respond_world.
  apply respond_named in Hans as (err & Hr & Ht & _).
  pose proof (process_existing_eq caps prompt _ _ w Hread) as Heq.
  cbv zeta in Heq.
  destruct (clean_response_text
              <$> MODEL_generate_content caps
                    (ModifyPrompt (universal_newlines raw) prompt))
    as [d|] eqn:Eo; cbn [truthy default] in Heq.
  2:{ rewrite Heq in Hr. cbn [fst] in Hr. injection Hr as _ <-.
      discriminate Ht. }
  change (id d) with d in Heq.
  destruct (str_truthy d).
  2:{ rewrite Heq in Hr. cbn [fst] in Hr. injection Hr as _ <-.
      discriminate Ht. }
  rewrite Heq in Hr |- *.
  exists raw, d. rewrite <- Hkey. split; [exact E|].
  split; [rewrite modify_dot_code_eq; cbn [fst]; rewrite Eo; reflexivity|].
  split.
  - pose proof (session_name_no_sep email_a crafted) as Hn.
    apply (stage_keeps_text caps d _ _ (out, err)); [..|exact Hr];
      rewrite Hkey, (session_key email_b sid Hsid).
    + rewrite (temp_png_key _ Hn). intros X. injection X as X _.
      vm_compute in X. discriminate X.
    + rewrite (temp_dot_key _ Hn). intros X. injection X as X _.
      vm_compute in X. discriminate X.
    + rewrite (output_pdf_key _ Hn). intros X. injection X as X _.
      vm_compute in X. discriminate X.
  - destruct (process_dot_code_calls caps d (session_file_of email_a crafted)
                (log_call w (CallModel
                   (ModifyPrompt (universal_newlines raw) prompt))))
      as [rest Hc].
    exists rest. rewrite Hc. cbn [calls log_call].
    rewrite <- app_assoc. reflexivity.
Qed.

Lemma append_reaches_other_namespace_witness :
  let json := json_of [("user_email", "mallory@example.com");
                       ("session_id", "../alice_example_com/7d1f3c1e-58a4-4e0b-9a57-0c2f6c0e11aa");
                       ("prompt", "Delete every step")]%string in
  let w' := snd (handle_add_request crlf_answer_caps json
                   installed_with_mallory) in
  exists raw d,
    files installed_with_mallory !! resolve (session_file_of alice alice_session)
    = Some raw
    /\ fst (modify_dot_code crlf_answer_caps (universal_newlines raw)
              (lit "Delete every step") installed_with_mallory)
       = Return (Some d)
    /\ files w' !! resolve (session_file_of alice alice_session) = Some d
    /\ exists rest,
         calls w'
         = calls installed_with_mallory
           ++ CallModel (ModifyPrompt (universal_newlines raw)
                           (lit "Delete every step")) :: rest.
Proof.
  apply (append_reaches_other_namespace crlf_answer_caps
           (json_of [("user_email", "mallory@example.com");
                     ("session_id", "../alice_example_com/7d1f3c1e-58a4-4e0b-9a57-0c2f6c0e11aa");
                     ("prompt", "Delete every step")]%string)
           mallory mallory_session (lit "digraph flowchart { Mine; }")
           alice alice_session (lit "Delete every step")
           installed_with_mallory
           mallory
           (lit "../alice_example_com/7d1f3c1e-58a4-4e0b-9a57-0c2f6c0e11aa")
           (lit "Flowchart PDF updated.")
           (Some (artifact_name alice_session)));
    try (vm_compute; reflexivity).
  discriminate.
Defined.

(** ** Request validation and the append pipeline *)

Lemma missing_fields_aux (caps : capabilities) (uuid4 : str)
    (json : gmap str str) (w : world) :
  (json !! lit "user_email" = None \/ json !! lit "prompt" = None ->
   handle_create_request caps uuid4 json w
   = (Return (JsonError
                (lit "Request body must include 'user_email' and 'prompt'"),
              400), w))
  /\ (json !! lit "user_email" = None \/ json !! lit "session_id" = None
      \/ json !! lit "prompt" = None ->
      handle_add_request caps json w
      = (Return (JsonError
                   (lit "Request body must include 'user_email', 'session_id', and 'prompt'"),
                 400), w))
  /\ (json !! lit "user_email" = None \/ json !! lit "template_id" = None ->
      handle_load_template_request caps uuid4 json w
      = (Return (JsonError
                   (lit "Request body must include 'user_email' and 'template_id'"),
                 400), w)).
Proof.
  split; [|split].
  - unfold handle_create_request.
    destruct (json !! lit "user_email"); destruct (json !! lit "prompt");
      intros [H|H]; try discriminate H; reflexivity.
  - unfold handle_add_request.
    destruct (json !! lit "user_email"); destruct (json !! lit "session_id");
      destruct (json !! lit "prompt");
      intros [H|[H|H]]; try discriminate H; reflexivity.
  - unfold handle_load_template_request.
    destruct (json !! lit "user_email"); destruct (json !! lit "template_id");
      intros [H|H]; try discriminate H; reflexivity.
Qed.

(** X11: called on a session document that is not stored, the append
    pipeline raises [FileNotFoundError] from its read: the model is not
    called and nothing is written. *)
Theorem append_pipeline_on_missing_document (caps : capabilities)
    (prompt : str) (sf : Path) (w : world) :
  fst (path_exists sf w) = Return false ->
  process_flowchart_request caps prompt sf false w
  = (Raise (FileNotFoundError sf), w).
Proof.
  intros H. unfold path_exists in H. cbn [fst] in H.
  unfold process_flowchart_request, bind at 1. unfold bind at 1, read_text.
  destruct (files w !! resolve sf) as [c|]; [|reflexivity].
  rewrite bool_decide_eq_true_2 in H by eauto. discriminate H.
Qed.

Lemma append_pipeline_on_missing_document_witness :
  process_flowchart_request working_caps (lit "x")
    (session_file_of alice fresh_uuid) false installed
  = (Raise (FileNotFoundError (session_file_of alice fresh_uuid)), installed).
Proof.
  apply append_pipeline_on_missing_document. vm_compute. reflexivity.
Defined.

(** ** Stems, output names and the template catalog *)

Lemma rfind_from_app (c : char) (a b : str) (i : nat) (f : option nat) :
  rfind_from c i (a ++ b) f
  = rfind_from c (i + length a) b (rfind_from c i a f).
Proof.
  revert i f. induction a as [|x a IH]; intros i f; simpl.
  - rewrite Nat.add_0_r. reflexivity.
  - rewrite IH. f_equal. lia.
Qed.

Lemma rfind_dot_ext (x : str) :
  rfind (x ++ lit ".dot") 46 = Some (length x).
Proof.
  unfold rfind. rewrite rfind_from_app. reflexivity.
Qed.

Lemma stem_by_name (p : Path) (x : str) :
  name p = x ++ lit ".dot" -> x <> [] -> stem p = x.
Proof.
  intros Hn Hx. unfold stem. rewrite Hn, rfind_dot_ext.
  assert ((0 <? length x)%nat = true) as ->.
  { apply Nat.ltb_lt. destruct x; [contradiction|simpl; lia]. }
  assert ((length x <? length (x ++ lit ".dot") - 1)%nat = true) as ->.
  { apply Nat.ltb_lt. rewrite length_app. simpl. lia. }
  cbn [andb]. apply take_app_length.
Qed.

(** X12: for a non-empty session id without separator (every uuid4 string)
    the output document is named [flowchart_<id>.pdf]; hence two such ids
    never share an output document. *)
Theorem artifact_name_of_plain_id (sid1 sid2 : str) :
  no_sep sid1 = true -> sid1 <> [] ->
  no_sep sid2 = true -> sid2 <> [] ->
  artifact_name sid1 = lit "flowchart_" ++ sid1 ++ lit ".pdf"
  /\ (artifact_name sid1 = artifact_name sid2 -> sid1 = sid2).
Proof.
  assert (forall s, no_sep s = true -> s <> [] ->
                    artifact_name s = lit "flowchart_" ++ s ++ lit ".pdf") as Hn.
  { intros s Hs Hne. unfold artifact_name. f_equal. f_equal.
    apply stem_by_name; [|exact Hne].
    rewrite name_PurePath_ext; [|reflexivity|simpl; lia].
    rewrite (split_on_no_sep s Hs). reflexivity. }
  intros H1 Hne1 H2 Hne2. split; [apply Hn; assumption|].
  rewrite (Hn sid1 H1 Hne1), (Hn sid2 H2 Hne2). intros E.
  apply app_inv_head in E. apply app_inv_tail in E. exact E.
Qed.

Lemma artifact_name_of_plain_id_witness :
  artifact_name fresh_uuid = lit "flowchart_" ++ fresh_uuid ++ lit ".pdf"
  /\ (artifact_name fresh_uuid = artifact_name alice_session ->
      fresh_uuid = alice_session).
Proof.
  apply artifact_name_of_plain_id;
    solve [vm_compute; reflexivity | discriminate].
Defined.

Lemma startswith_app (p r : str) : startswith (p ++ r) p = true.
Proof.
  induction p as [|c p IH]; [destruct r; reflexivity|].
  simpl. rewrite N.eqb_refl, IH. reflexivity.
Qed.

Lemma endswith_app (x suf : str) : endswith (x ++ suf) suf = true.
Proof. unfold endswith. rewrite rev_app_distr. apply startswith_app. Qed.

(** X13: list and load agree on ordinary template files.  When the template
    directory holds a file [<id>.dot] whose [id] is non-empty and free of
    separators, [id] is among the ids [list_templates] returns, and
    [handle_load_template_request] for [id] does not answer 404: it hands the
    content of that file, as read, to the render stage for the new
    session. *)
Theorem listed_template_is_loadable (w : world) (tid text : str) :
  tid <> [] ->
  no_sep tid = true ->
  files w !! [lit "flowchart_templates"; tid ++ lit ".dot"] = Some text ->
  (exists ids, fst (list_templates_ids w) = Return ids /\ In tid ids)
  /\ forall (caps : capabilities) (uuid4 : str) (json : gmap str str)
            (email : str),
       json !! lit "user_email" = Some email ->
       json !! lit "template_id" = Some tid ->
       handle_load_template_request caps uuid4 json w
       = respond email uuid4
           (lit "Template '" ++ tid ++ lit "' loaded successfully.")
           (process_dot_code caps (universal_newlines text)
              (session_file_of email uuid4) w).
Proof.
  intros Hne Hs Hf.
  assert (no_sep (tid ++ lit ".dot") = true) as Hsd
    by (rewrite no_sep_app, Hs; reflexivity).
  assert ((3 <= length (tid ++ lit ".dot"))%nat) as Hl
    by (rewrite length_app; simpl; lia).
  split.
  - eexists. split; [reflexivity|].
    apply in_map_iff.
    exists ([lit "flowchart_templates"] ++ [tid ++ lit ".dot"]). split.
    + apply stem_by_name; [|exact Hne]. apply name_snoc. lia.
    + apply list_elem_of_In, list_elem_of_omap.
      exists [lit "flowchart_templates"; tid ++ lit ".dot"]. split.
      * apply list_elem_of_In, in_map_iff.
        exists ([lit "flowchart_templates"; tid ++ lit ".dot"], text).
        split; [reflexivity|].
        apply list_elem_of_In, elem_of_map_to_list. exact Hf.
      * change (resolve TEMPLATE_DIR) with [lit "flowchart_templates"].
        change TEMPLATE_DIR with [lit "flowchart_templates"].
        cbn [length take List.last].
        rewrite bool_decide_eq_true_2 by (split; reflexivity).
        rewrite endswith_app. reflexivity.
  - intros caps uuid4 json email He Ht.
    rewrite (handle_load_template_request_eq caps uuid4 json email tid w He Ht).
    change TEMPLATE_DIR with [lit "flowchart_templates"].
    rewrite dir_file_key by (first [discriminate|assumption]).
    match goal with
    | |- context [files w !! ?k] =>
        replace (files w !! k) with (Some text) by (symmetry; exact Hf)
    end.
    reflexivity.
Qed.

Lemma listed_template_is_loadable_witness :
  exists ids, fst (list_templates_ids installed) = Return ids
              /\ In (lit "simple_process") ids.
Proof.
  apply (listed_template_is_loadable installed (lit "simple_process")
           (lit "digraph flowchart { Start -> End; }"));
    solve [vm_compute; reflexivity | discriminate].
Defined.

(** ** The template flow *)

(** X14: when the path built from the template id leads to no stored file,
    the template handler creates no session: it answers no success, and the
    storage and the call log are as they were, so nothing was read, written
    or rendered. *)
Theorem unknown_template_file_is_rejected (caps : capabilities)
    (uuid4 : str) (json : gmap str str) (email tid : str) (w : world) :
  json !! lit "user_email" = Some email ->
  json !! lit "template_id" = Some tid ->
  files w !! resolve (TEMPLATE_DIR // (tid ++ lit ".dot")) = None ->
  snd (handle_load_template_request caps uuid4 json w) = w
  /\ forall (email' sid msg : str) (out : option str) (code : N),
       fst (handle_load_template_request caps uuid4 json w)
       <> Return (JsonSuccess email' sid msg out, code).
Proof.
  intros He Ht Hx.
  rewrite (handle_load_template_request_eq caps uuid4 json email tid w He Ht).
  rewrite Hx. split; [reflexivity|]. intros. discriminate.
Qed.

Lemma unknown_template_file_is_rejected_witness :
  let r := handle_load_template_request working_caps fresh_uuid
             (json_of [("user_email", "alice@example.com");
                       ("template_id", "../../etc/passwd")]%string)
             installed in
  snd r = installed
  /\ forall (email' sid msg : str) (out : option str) (code : N),
       fst r <> Return (JsonSuccess email' sid msg out, code).
Proof.
  apply (unknown_template_file_is_rejected working_caps fresh_uuid _ alice
           (lit "../../etc/passwd") installed);
    vm_compute; reflexivity.
Defined.

(** X15: a successful template load creates the session under the fresh id
    and stores the template file's text in it, unchanged. *)
Theorem template_load_persists_template (caps : capabilities) (uuid4 : str)
    (json : gmap str str) (email tid : str) (w : world)
    (email' sid msg : str) (out : option str) :
  json !! lit "user_email" = Some email ->
  json !! lit "template_id" = Some tid ->
  no_sep uuid4 = true ->
  fst (handle_load_template_request caps uuid4 json w)
  = Return (JsonSuccess email' sid msg out, 200) ->
  let w' := snd (handle_load_template_request caps uuid4 json w) in
  sid = uuid4
  /\ exists text,
       fst (read_text (TEMPLATE_DIR // (tid ++ lit ".dot")) w) = Return text
       /\ fst (read_text (session_file_of email sid) w') = Return text.
Proof.
  intros He Ht Hsid H w'. subst w'.
  rewrite (handle_load_template_request_eq caps uuid4 json email tid w He Ht)
    in H |- *.
  unfold read_text at 1.
  destruct (files w !! resolve (TEMPLATE_DIR // (tid ++ lit ".dot")))
    as [raw|]; [|discriminate H].
  apply respond_named in H as (err & Hr & _ & ->).
  split; [reflexivity|]. exists (universal_newlines raw).
  split; [reflexivity|]. rewrite respond_world.
  destruct (session_key_apart email uuid4 Hsid) as (HP & HD & HO).
  rewrite (read_text_stored _ _ _
             (stage_keeps_text caps _ _ w _ HP HD HO Hr)).
  cbn [fst]. rewrite universal_newlines_idem. reflexivity.
Qed.

Lemma template_load_persists_template_witness :
  let w' := snd (handle_load_template_request working_caps fresh_uuid
                   (json_of [("user_email", "alice@example.com");
                             ("template_id", "simple_process")]%string)
                   installed) in
  fresh_uuid = fresh_uuid
  /\ exists text,
       fst (read_text (TEMPLATE_DIR // (lit "simple_process" ++ lit ".dot"))
              installed) = Return text
       /\ fst (read_text (session_file_of alice fresh_uuid) w') = Return text.
Proof.
  apply (template_load_persists_template working_caps fresh_uuid
           (json_of [("user_email", "alice@example.com");
                     ("template_id", "simple_process")]%string)
           alice (lit "simple_process") installed
           alice fresh_uuid
           (lit "Template '" ++ lit "simple_process"
            ++ lit "' loaded successfully.")
           (Some (artifact_name fresh_uuid)));
    vm_compute; reflexivity.
Defined.

(** X16: the template flow never calls the model: whatever the request and
    the storage, the calls it adds to the log are at most one Graphviz call
    followed by at most one PyMuPDF call. *)
Theorem template_load_never_generates (caps : capabilities) (uuid4 : str)
    (json : gmap str str) (w : world) :
  exists rest,
    calls (snd (handle_load_template_request caps uuid4 json w))
    = calls w ++ rest
    /\ forall r : gen_request, ~ In (CallModel r) rest.
Proof.
  destruct (json !! lit "user_email") as [e|] eqn:He;
    [destruct (json !! lit "template_id") as [t|] eqn:Ht|].
  - rewrite (handle_load_template_request_eq caps uuid4 json e t w He Ht).
    destruct (files w !! resolve (TEMPLATE_DIR // (t ++ lit ".dot")))
      as [text|].
    + rewrite respond_world.
      destruct (process_dot_code_call_log caps (universal_newlines text)
                  (session_file_of e uuid4) w) as [Hc|[Hc|(tp & i & Hc)]];
        rewrite Hc; [exists []; rewrite app_nil_r|eexists ..];
        (split; [reflexivity|]);
        intros r X; cbn [In] in X; intuition discriminate.
    + exists []. cbn [snd]. rewrite app_nil_r. split; [reflexivity|].
      intros r X. exact X.
  - exists []. rewrite app_nil_r.
    rewrite (proj2 (proj2 (missing_fields_aux caps uuid4 json w)));
      [split; [reflexivity|intros r X; exact X]|auto].
  - exists []. rewrite app_nil_r.
    rewrite (proj2 (proj2 (missing_fields_aux caps uuid4 json w)));
      [split; [reflexivity|intros r X; exact X]|auto].
Qed.

(** ** The user folder *)

Lemma sanitize_nil_iff (email : str) :
  sanitize_email_for_folder email = [] <-> email = [].
Proof.
  split; [|intros ->; reflexivity].
  destruct email as [|c s]; [reflexivity|].
  rewrite sanitize_cons. discriminate.
Qed.

(** X17: the user folder cannot leave the session directory.  For every
    user identifier the session directory of the user is the single
    sub-directory [session_files/<folder>], whose name contains neither a
    separator nor a dot; only the empty identifier gives the session
    directory itself. *)
Theorem user_folder_inside_session_dir (email : str) :
  let folder := sanitize_email_for_folder email in
  no_sep folder = true
  /\ ~ In 46 folder
  /\ (email <> [] -> resolve (SESSION_DIR // folder)
                     = [lit "session_files"; folder])
  /\ (email = [] -> resolve (SESSION_DIR // folder) = [lit "session_files"]).
Proof.
  cbv zeta. pose proof (sanitize_forall email) as Hf.
  split; [apply folder_char_no_sep, Hf|]. split.
  - intros Hin. apply (proj1 (List.Forall_forall _ _) Hf) in Hin.
    discriminate Hin.
  - rewrite (join_folder _ _ Hf), SESSION_DIR_parts. split.
    + intros Hne. rewrite str_eqb_neq by (rewrite sanitize_nil_iff; exact Hne).
      apply resolve_plain. repeat constructor; [discriminate|].
      apply folder_char_not_dots, Hf.
    + intros ->. reflexivity.
Qed.

Lemma user_folder_inside_session_dir_witness :
  resolve (SESSION_DIR // sanitize_email_for_folder (lit "../../etc"))
  = [lit "session_files"; sanitize_email_for_folder (lit "../../etc")].
Proof.
  apply (user_folder_inside_session_dir (lit "../../etc")). discriminate.
Defined.

Lemma sanitize_app (a b : str) :
  sanitize_email_for_folder (a ++ b)
  = sanitize_email_for_folder a ++ sanitize_email_for_folder b.
Proof.
  induction a as [|c a IH]; [reflexivity|].
  cbn [app]. rewrite !sanitize_cons, IH. reflexivity.
Qed.

Lemma sanitize_matches (x : str) :
  matches_folder_pattern (sanitize_email_for_folder x) = true.
Proof.
  unfold matches_folder_pattern.
  induction (sanitize_forall x) as [|c s Hc _ IH]; [reflexivity|].
  simpl. rewrite Hc, IH. reflexivity.
Qed.

(** X18: the identifiers [sanitize_email_for_folder] leaves unchanged are
    exactly those that already match [A-Za-z0-9_-]*; and two identifiers get
    the same folder exactly when they have the same length and agree at
    every position up to characters outside the class. *)
Theorem sanitize_fixed_points_and_collisions (x y : str) :
  (sanitize_email_for_folder x = x <-> matches_folder_pattern x = true)
  /\ (sanitize_email_for_folder x = sanitize_email_for_folder y
      <-> Forall2 (fun a b => (if folder_char a then a else 95)
                              = (if folder_char b then b else 95)) x y).
Proof.
  split.
  - split.
    + intros E. rewrite <- E. apply sanitize_matches.
    + intros H. apply sanitize_fixed. unfold matches_folder_pattern in H.
      induction x as [|c x IH]; [constructor|]. simpl in H.
      apply andb_true_iff in H as [Hc Hx]. constructor; auto.
  - split.
    + revert y. induction x as [|a x IH]; intros [|b y] E;
        rewrite ?sanitize_cons in E; try discriminate E.
      * constructor.
      * injection E as Eab E. constructor; [exact Eab|apply IH, E].
    + induction 1 as [|a b x y Eab _ IH]; [reflexivity|].
      rewrite !sanitize_cons, Eab, IH. reflexivity.
Qed.

(** ** The text the generators return *)

Lemma replace_scan_skip (old new : str) (k : nat) (s : str) :
  replace_scan old new k s = replace_scan old new O (drop k s).
Proof.
  revert k. induction s as [|c s IH]; intros [|k]; try reflexivity.
  simpl. apply IH.
Qed.

Lemma replace_fence_cons (c : char) (s : str) :
  replace (c :: s) (lit "```") []
  = if startswith (c :: s) (lit "```")
    then replace (drop 2 s) (lit "```") []
    else c :: replace s (lit "```") [].
Proof.
  change (lit "```") with [96; 96; 96]. unfold replace.
  cbn [replace_scan length Nat.pred].
  destruct (startswith (c :: s) [96; 96; 96]); [|reflexivity].
  cbn [app]. apply replace_scan_skip.
Qed.

Lemma no_fence_cons (c : char) (r : str) :
  startswith (c :: r) (lit "```") = false ->
  (forall a b, r <> a ++ lit "```" ++ b) ->
  forall a b, c :: r <> a ++ lit "```" ++ b.
Proof.
  intros Hs Hr [|x a] b E.
  - cbn [app] in E. rewrite E, startswith_app in Hs. discriminate Hs.
  - injection E as _ E. exact (Hr a b E).
Qed.

Lemma startswith_nil (s : str) : startswith s [] = true.
Proof. destruct s; reflexivity. Qed.

Lemma startswith_cons (c : char) (r : str) (p : char) (ps : str) :
  startswith (c :: r) (p :: ps) = (c =? p) && startswith r ps.
Proof. reflexivity. Qed.

Lemma replace_fence_bounded (n : nat) (s : str) :
  (length s <= n)%nat ->
  let r := replace s (lit "```") [] in
  (forall a b, r <> a ++ lit "```" ++ b)
  /\ (startswith r [96] = true -> startswith s [96] = true)
  /\ (startswith r [96; 96] = true -> startswith s [96; 96] = true).
Proof.
  revert s. induction n as [|n IH]; intros s Hl; cbv zeta.
  - destruct s; [|simpl in Hl; lia].
    repeat split; try discriminate.
    intros [|x a] b E; discriminate E.
  - destruct s as [|c s].
    { repeat split; try discriminate. intros [|x a] b E; discriminate E. }
    rewrite replace_fence_cons.
    destruct (startswith (c :: s) (lit "```")) eqn:Es.
    + assert ((length (drop 2 s) <= n)%nat) as Hd
        by (rewrite length_drop; simpl in Hl; lia).
      destruct (IH (drop 2 s) Hd) as (Hno & _ & _).
      split; [exact Hno|].
      change (lit "```") with [96; 96; 96] in Es.
      rewrite startswith_cons in Es.
      apply andb_true_iff in Es as [Ec Es].
      destruct s as [|x s]; [discriminate Es|].
      rewrite startswith_cons in Es.
      apply andb_true_iff in Es as [Ex _].
      rewrite !startswith_cons, Ec, Ex, !startswith_nil. auto.
    + assert ((length s <= n)%nat) as Hs by (simpl in Hl; lia).
      destruct (IH s Hs) as (Hno & H1 & H2).
      set (r := replace s (lit "```") []) in *.
      split; [|split].
      * apply no_fence_cons; [|exact Hno].
        change (lit "```") with [96; 96; 96] in Es |- *.
        rewrite startswith_cons in Es |- *.
        destruct (c =? 96); [|reflexivity]. cbn [andb] in Es |- *.
        destruct (startswith r [96; 96]) eqn:E2; [|reflexivity].
        rewrite (H2 eq_refl) in Es. discriminate Es.
      * rewrite !startswith_cons, !startswith_nil. intros H. exact H.
      * rewrite !startswith_cons. destruct (c =? 96); [|discriminate].
        cbn [andb]. exact H1.
Qed.

Lemma lstrip_suffix (s : str) : exists a, s = a ++ lstrip s.
Proof.
  induction s as [|c s [a IH]]; [exists []; reflexivity|].
  simpl. destruct (isspace c); [|exists []; reflexivity].
  exists (c :: a). simpl. f_equal. exact IH.
Qed.

Lemma rstrip_prefix (s : str) : exists b, s = rstrip s ++ b.
Proof.
  unfold rstrip. destruct (lstrip_suffix (rev s)) as [a Ha].
  exists (rev a). rewrite <- rev_app_distr, <- Ha, rev_involutive.
  reflexivity.
Qed.

Lemma lstrip_head (s : str) (c : char) :
  head (lstrip s) = Some c -> isspace c = false.
Proof.
  induction s as [|x s IH]; [discriminate|]. simpl.
  destruct (isspace x) eqn:E; [exact IH|].
  simpl. intros H. injection H as <-. exact E.
Qed.

(** X19: the text [generate_initial_dot_code] and [modify_dot_code] return
    for a model answer never contains a code fence (three backquotes) and
    neither starts nor ends with a white-space character, whatever the model
    answered. *)
Theorem cleaned_text_has_no_fence (text : str) :
  let r := clean_response_text text in
  (forall a b : str, r <> a ++ lit "```" ++ b)
  /\ (forall c : char, head r = Some c -> isspace c = false)
  /\ (forall c : char, last r = Some c -> isspace c = false).
Proof.
  cbv zeta. unfold clean_response_text, strip.
  set (v := replace (rstrip (lstrip text)) (lit "```dot") []).
  set (u := replace v (lit "```") []).
  destruct (replace_fence_bounded (length v) v (Nat.le_refl _))
    as (Hno & _ & _).
  fold u in Hno.
  destruct (lstrip_suffix u) as [a Ha].
  destruct (rstrip_prefix (lstrip u)) as [b Hb].
  split; [|split].
  - intros x y E. apply (Hno (a ++ x) (y ++ b)).
    rewrite Ha, Hb, E, <- !app_assoc. reflexivity.
  - intros c Hc. apply (lstrip_head u c). rewrite Hb.
    destruct (rstrip (lstrip u)); [discriminate Hc|exact Hc].
  - intros c Hc. unfold rstrip in Hc.
    apply (lstrip_head (rev (lstrip u)) c).
    destruct (lstrip (rev (lstrip u))) as [|x l]; [discriminate Hc|].
    cbn [rev] in Hc. rewrite last_snoc in Hc. exact Hc.
Qed.

(** ** One model call per request *)




(** ** The temporary image after a failed embedding *)


